(** * kserve [kfmodel.py]: the request pipeline of [KFModel]

    A shallow embedding of [python/kserve/kserve/kfmodel.py]: the values a
    request body may be, the serving unit with its lazily created transport
    clients, the five stages (preprocess, validate, predict or explain,
    postprocess) and the orchestrator [KFModel.__call__].

    External collaborators ([json], tornado's HTTP client, the gRPC stub,
    tritonclient's [InferResult]) are not part of the file; they are the
    fields of a [Runtime] record over which every definition is
    parameterised.  Outbound calls are recorded in a trace. *)

From Stdlib Require Import ZArith String Ascii List Bool Lia.
From stdpp Require Import base option gmap strings.

Local Open Scope string_scope.
Local Open Scope Z_scope.

(** ** Python values *)

(** [bytes] objects; a Rocq [string] is a list of 8-bit characters. *)
Definition bytes := string.

(** The four overridable stage methods of [KFModel]. *)
Inductive Stage :=
| Preprocess
| Predict
| Explain
| Postprocess.

Set Warnings "-register-all".

(** The Python objects that flow through the pipeline.  [VDict] is a [dict]
    with string keys (a JSON object), [VCloudEvent] a
    [cloudevents.http.CloudEvent] with its [_attributes] and [data],
    [VServeRequest] a [ray.serve.utils.ServeRequest] holding what its
    [body()] coroutine resolves to, [VModelInferRequest] and
    [VModelInferResponse] the protobuf messages of tritonclient (by their
    serialised form).  [VCoroutine st arg] is the coroutine object obtained
    by calling the [async def] stage [st] of the model on [arg] without
    awaiting it. *)
Inductive PyVal :=
| VNone
| VBool (b : bool)
| VInt (z : Z)
| VStr (s : string)
| VBytes (b : bytes)
| VList (l : list PyVal)
| VDict (d : gmap string PyVal)
| VCloudEvent (attributes : gmap string PyVal) (data : PyVal)
| VServeRequest (data : PyVal)
| VModelInferRequest (msg : bytes)
| VModelInferResponse (msg : bytes)
| VCoroutine (st : Stage) (arg : PyVal).

(** [isinstance(v, list)] *)
Definition isinstance_list (v : PyVal) : bool :=
  match v with VList _ => true | _ => false end.

(** [k in d] on a [dict]. *)
Definition contains (d : gmap string PyVal) (k : string) : bool :=
  match d !! k with Some _ => true | None => false end.

(** [v == s] for a string literal [s]: only a [str] equals a [str]. *)
Definition eq_str (v : PyVal) (s : string) : bool :=
  match v with VStr s' => String.eqb s' s | _ => false end.

(** [sub in s] on [str]. *)
Definition str_in (sub s : string) : bool :=
  match String.index 0 sub s with Some _ => true | None => false end.

(** [str(h)] of an attribute that is [None] or a [str], as [str.format]
    renders it. *)
Definition str_of (h : option string) : string :=
  match h with Some s => s | None => "None" end.

(** ** Exceptions and results *)

Inductive Exn :=
| HTTPError (status_code : Z) (reason : PyVal)   (* tornado.web.HTTPError *)
| NotImplementedError
| JSONDecodeError (msg : string)
| UnicodeDecodeError (msg : string)
| TypeError (msg : string)
| KeyError (key : string)
| TransportError (msg : string).   (* a fault raised by fetch or by the stub *)

Inductive Result (A : Type) :=
| Return (a : A)
| Raise (e : Exn).
Arguments Return {A} a.
Arguments Raise {A} e.

(** [HTTPStatus.BAD_REQUEST] *)
Definition BAD_REQUEST : Z := 400.

(** ** Module constants *)

Definition PREDICTOR_URL_FORMAT (a0 a1 : string) : string :=
  ("http://" ++ a0 ++ "/v1/models/" ++ a1 ++ ":predict")%string.
Definition EXPLAINER_URL_FORMAT (a0 a1 : string) : string :=
  ("http://" ++ a0 ++ "/v1/models/" ++ a1 ++ ":explain")%string.
Definition PREDICTOR_V2_URL_FORMAT (a0 a1 : string) : string :=
  ("http://" ++ a0 ++ "/v2/models/" ++ a1 ++ "/infer")%string.
Definition EXPLAINER_V2_URL_FORMAT (a0 a1 : string) : string :=
  ("http://" ++ a0 ++ "/v2/models/" ++ a1 ++ "/explain")%string.

Inductive ModelType :=
| EXPLAINER
| PREDICTOR.

Inductive PredictorProtocol :=
| REST_V1
| REST_V2
| GRPC_V2.

(** [PredictorProtocol.X.value] *)
Definition value (p : PredictorProtocol) : string :=
  match p with
  | REST_V1 => "v1"
  | REST_V2 => "v2"
  | GRPC_V2 => "grpc-v2"
  end.

(** ** The serving unit and the world it runs in *)

(** [AsyncHTTPClient(max_clients=...)] and
    [GRPCInferenceServiceStub(grpc.aio.insecure_channel(target))]. *)
Record AsyncHTTPClient := { max_clients : Z }.
Record GRPCInferenceServiceStub := { channel_target : string }.

(** [sys.maxsize] on a 64-bit build. *)
Definition sys_maxsize : Z := 2 ^ 63 - 1.

(** The instance attributes set by [KFModel.__init__]. *)
Record KFModel := mkKFModel {
  name : string;
  ready : bool;
  protocol : string;
  predictor_host : option string;
  explainer_host : option string;
  timeout : Z;
  _http_client_instance : option AsyncHTTPClient;
  _grpc_client_stub : option GRPCInferenceServiceStub
}.

Definition __init__ (name : string) : KFModel :=
  {| name := name;
     ready := false;
     protocol := value REST_V1;
     predictor_host := None;
     explainer_host := None;
     timeout := 600;
     _http_client_instance := None;
     _grpc_client_stub := None |}.

(** An outbound call, as handed to the transport. *)
Inductive NetCall :=
| HttpFetch (url method : string) (request_timeout : Z) (body : string)
| GrpcModelInfer (target : string) (request : PyVal) (timeout : Z).

(** The unit together with the outbound calls made so far, oldest first. *)
Record World := mkWorld {
  self : KFModel;
  net : list NetCall
}.

Record HTTPResponse := { code : Z; body : bytes }.

(** What the file imports and does not define. *)
Record Runtime := {
  (* bytes.decode('UTF-8') *)
  decode_UTF8 : bytes -> Exn + string;
  (* json.loads, on a str or on bytes *)
  json_loads : PyVal -> Exn + PyVal;
  (* json.dumps *)
  json_dumps : PyVal -> Exn + string;
  (* AsyncHTTPClient.fetch(url, method, request_timeout, body), awaited *)
  fetch : string -> string -> Z -> string -> Exn + HTTPResponse;
  (* GRPCInferenceServiceStub.ModelInfer(request, timeout), awaited, on the
     stub of a channel to the given target *)
  ModelInfer : string -> PyVal -> Z -> Exn + PyVal;
  (* InferResult(response).get_response(as_json=True) *)
  get_response_as_json : bytes -> Exn + PyVal
}.

(** ** The monad of method bodies: state and exceptions *)

Definition M (A : Type) : Type := World -> Result A * World.

Definition ret {A} (a : A) : M A := fun w => (Return a, w).

Definition raise {A} (e : Exn) : M A := fun w => (Raise e, w).

Definition bind {A B} (c : M A) (k : A -> M B) : M B :=
  fun w =>
    match c w with
    | (Return a, w') => k a w'
    | (Raise e, w') => (Raise e, w')
    end.

Notation "'let*' x ':=' c 'in' k" := (bind c (fun x => k))
  (at level 10, x name, c at level 100, k at level 200).

(** The value of a call into the runtime, or the exception it raised. *)
Definition lift {A} (r : Exn + A) : M A :=
  match r with
  | inl e => raise e
  | inr a => ret a
  end.

Definition of_result {A} (r : Result A) : M A := fun w => (r, w).

Definition get_self : M KFModel := fun w => (Return (self w), w).

Definition set_self (f : KFModel -> KFModel) : M unit :=
  fun w => (Return tt, {| self := f (self w); net := net w |}).

(** Appends an outbound call to the trace. *)
Definition emit (c : NetCall) : M unit :=
  fun w => (Return tt, {| self := self w; net := (net w ++ [c])%list |}).

(** Attribute assignments. *)
Definition with_ready (b : bool) (u : KFModel) : KFModel :=
  {| name := name u; ready := b; protocol := protocol u;
     predictor_host := predictor_host u; explainer_host := explainer_host u;
     timeout := timeout u;
     _http_client_instance := _http_client_instance u;
     _grpc_client_stub := _grpc_client_stub u |}.

Definition with_predictor_host (h : option string) (u : KFModel) : KFModel :=
  {| name := name u; ready := ready u; protocol := protocol u;
     predictor_host := h; explainer_host := explainer_host u;
     timeout := timeout u;
     _http_client_instance := _http_client_instance u;
     _grpc_client_stub := _grpc_client_stub u |}.

Definition with_http_client_instance (c : option AsyncHTTPClient) (u : KFModel)
  : KFModel :=
  {| name := name u; ready := ready u; protocol := protocol u;
     predictor_host := predictor_host u; explainer_host := explainer_host u;
     timeout := timeout u;
     _http_client_instance := c;
     _grpc_client_stub := _grpc_client_stub u |}.

Definition with_grpc_client_stub (s : option GRPCInferenceServiceStub)
  (u : KFModel) : KFModel :=
  {| name := name u; ready := ready u; protocol := protocol u;
     predictor_host := predictor_host u; explainer_host := explainer_host u;
     timeout := timeout u;
     _http_client_instance := _http_client_instance u;
     _grpc_client_stub := s |}.

(** The double quote, and the reason [validate] gives. *)
Definition dquote : string := String "034"%char EmptyString.

Definition validate_reason : string :=
  ("Expected " ++ dquote ++ "instances" ++ dquote ++ " or " ++ dquote
     ++ "inputs" ++ dquote ++ " to be a list")%string.

(** ** The methods of [KFModel] *)

(** [k in request and not isinstance(request[k], list)] *)
Definition in_and_not_list (request : gmap string PyVal) (k : string) : bool :=
  match request !! k with
  | Some v => negb (isinstance_list v)
  | None => false
  end.

(** [KFModel.validate], a static method. *)
Definition validate (request : PyVal) : Result PyVal :=
  match request with
  | VDict d =>
      if in_and_not_list d "instances" || in_and_not_list d "inputs"
      then Raise (HTTPError BAD_REQUEST (VStr validate_reason))
      else Return request
  | _ => Return request
  end.

(** [KFModel.load] *)
Definition load : M bool :=
  let* _ := set_self (with_ready true) in
  let* u := get_self in
  ret (ready u).

(** The property [KFModel._http_client]. *)
Definition _http_client : M AsyncHTTPClient :=
  let* u := get_self in
  match _http_client_instance u with
  | None =>
      let c := {| max_clients := sys_maxsize |} in
      let* _ := set_self (with_http_client_instance (Some c)) in
      ret c
  | Some c => ret c
  end.

(** The property [KFModel._grpc_client]. *)
Definition _grpc_client : M GRPCInferenceServiceStub :=
  let* u := get_self in
  match _grpc_client_stub u with
  | None =>
      match predictor_host u with
      | None => raise (TypeError "argument of type 'NoneType' is not iterable")
      | Some h =>
          let* _ := (if negb (str_in ":" h)
                     then set_self (with_predictor_host (Some (h ++ ":80")%string))
                     else ret tt) in
          let* u' := get_self in
          let _channel := str_of (predictor_host u') in
          let stub := {| channel_target := _channel |} in
          let* _ := set_self (with_grpc_client_stub (Some stub)) in
          ret stub
      end
  | Some stub => ret stub
  end.

Section Methods.

Variable rt : Runtime.

(** [json.loads(b.decode('UTF-8'))] *)
Definition loads_decoded (b : bytes) : Exn + PyVal :=
  match decode_UTF8 rt b with
  | inl e => inl e
  | inr s => json_loads rt (VStr s)
  end.

(** [attributes["content-type"]] is one of the two JSON content types. *)
Definition json_content_type (attributes : gmap string PyVal) : bool :=
  match attributes !! "content-type" with
  | Some ct =>
      eq_str ct "application/cloudevents+json" || eq_str ct "application/json"
  | None => false
  end.

(** The [except] clause of [preprocess]: [e] was caught while decoding the
    bytes [response] of an event with these attributes. *)
Definition on_decode_error (attributes : gmap string PyVal) (e : string)
  (response : PyVal) : M PyVal :=
  if json_content_type attributes
  then raise (HTTPError BAD_REQUEST
                (VStr ("Unrecognized request format: " ++ e)%string))
  else ret response.

(** [KFModel.preprocess] *)
Definition preprocess (request : PyVal) : M PyVal :=
  match request with
  | VCloudEvent attributes data =>
      match data with
      | VBytes b =>
          match loads_decoded b with
          | inr v => ret v
          | inl (JSONDecodeError e) => on_decode_error attributes e data
          | inl (UnicodeDecodeError e) => on_decode_error attributes e data
          | inl e => raise e
          end
      | _ => ret data
      end
  | VServeRequest data => ret data
  | VDict d =>
      if contains d "time" && contains d "type" && contains d "source"
         && contains d "id" && contains d "specversion" && contains d "data"
      then match d !! "data" with
           | Some v => ret v
           | None => raise (KeyError "data")
           end
      else ret request
  | _ => ret request
  end.

(** [KFModel.postprocess] *)
Definition postprocess (response : PyVal) : M PyVal :=
  match response with
  | VModelInferResponse msg => lift (get_response_as_json rt msg)
  | _ => ret response
  end.

(** [await client.fetch(url, method=..., request_timeout=..., body=...)]:
    the call is handed to the transport and its answer, or the fault it
    raises, comes back. *)
Definition AsyncHTTPClient_fetch (client : AsyncHTTPClient)
  (url method : string) (request_timeout : Z) (body : string)
  : M HTTPResponse :=
  let* _ := emit (HttpFetch url method request_timeout body) in
  lift (fetch rt url method request_timeout body).

(** [await client.fetch(url=..., method=..., request_timeout=...,
    body=...)], the URL given under the keyword [url].  tornado declares
    [fetch(self, request, raise_error=True, **kwargs)]: the keyword binds
    nothing to [request], so the call raises [TypeError] and nothing is
    handed to the transport. *)
Definition AsyncHTTPClient_fetch_by_url (client : AsyncHTTPClient)
  (url method : string) (request_timeout : Z) (body : string)
  : M HTTPResponse :=
  raise (TypeError "fetch() missing 1 required positional argument: 'request'").

(** [await stub.ModelInfer(request=..., timeout=...)] *)
Definition Stub_ModelInfer (stub : GRPCInferenceServiceStub)
  (request : PyVal) (timeout : Z) : M PyVal :=
  let* _ := emit (GrpcModelInfer (channel_target stub) request timeout) in
  lift (ModelInfer rt (channel_target stub) request timeout).

(** [KFModel._http_predict].  In the call expression the client property
    is read before the arguments are evaluated. *)
Definition _http_predict (request : PyVal) : M PyVal :=
  let* u := get_self in
  let predict_url := PREDICTOR_URL_FORMAT (str_of (predictor_host u)) (name u) in
  let predict_url :=
    if String.eqb (protocol u) (value REST_V2)
    then PREDICTOR_V2_URL_FORMAT (str_of (predictor_host u)) (name u)
    else predict_url in
  let* client := _http_client in
  let* u := get_self in
  let* dumped := lift (json_dumps rt request) in
  let* response :=
    AsyncHTTPClient_fetch client predict_url "POST" (timeout u) dumped in
  if negb (code response =? 200)
  then raise (HTTPError (code response) (VBytes (body response)))
  else lift (json_loads rt (VBytes (body response))).

(** [KFModel._grpc_predict] *)
Definition _grpc_predict (request : PyVal) : M PyVal :=
  let* stub := _grpc_client in
  let* u := get_self in
  let* async_result := Stub_ModelInfer stub request (timeout u) in
  ret async_result.

(** [not self.predictor_host] *)
Definition falsy (h : option string) : bool :=
  match h with
  | None => true
  | Some s => String.eqb s ""
  end.

(** [KFModel.predict] *)
Definition predict (request : PyVal) : M PyVal :=
  let* u := get_self in
  if falsy (predictor_host u) then raise NotImplementedError
  else if String.eqb (protocol u) (value GRPC_V2)
       then _grpc_predict request
       else _http_predict request.

(** [KFModel.explain].  Unlike [_http_predict] it passes the URL to [fetch]
    by keyword. *)
Definition explain (request : PyVal) : M PyVal :=
  let* u := get_self in
  match explainer_host u with
  | None => raise NotImplementedError
  | Some _ =>
      let explain_url :=
        EXPLAINER_URL_FORMAT (str_of (explainer_host u)) (name u) in
      let explain_url :=
        if String.eqb (protocol u) (value REST_V2)
        then EXPLAINER_V2_URL_FORMAT (str_of (explainer_host u)) (name u)
        else explain_url in
      let* client := _http_client in
      let* u := get_self in
      let* dumped := lift (json_dumps rt request) in
      let* response :=
        AsyncHTTPClient_fetch_by_url client explain_url "POST" (timeout u)
          dumped in
      if negb (code response =? 200)
      then raise (HTTPError (code response) (VBytes (body response)))
      else lift (json_loads rt (VBytes (body response)))
  end.

(** *** Subclasses and the orchestrator *)

(** A stage method as a subclass defines it: whether it is an [async def]
    ([inspect.iscoroutinefunction]) and what its body does. *)
Record Method := {
  iscoroutinefunction : bool;
  run : PyVal -> M PyVal
}.

(** The four stage methods of a class derived from [KFModel]. *)
Record ModelClass := {
  m_preprocess : Method;
  m_predict : Method;
  m_explain : Method;
  m_postprocess : Method
}.

Definition method (cls : ModelClass) (st : Stage) : Method :=
  match st with
  | Preprocess => m_preprocess cls
  | Predict => m_predict cls
  | Explain => m_explain cls
  | Postprocess => m_postprocess cls
  end.

(** [KFModel] itself: three coroutine functions and a plain [postprocess]. *)
Definition base : ModelClass :=
  {| m_preprocess := {| iscoroutinefunction := true; run := preprocess |};
     m_predict := {| iscoroutinefunction := true; run := predict |};
     m_explain := {| iscoroutinefunction := true; run := explain |};
     m_postprocess := {| iscoroutinefunction := false; run := postprocess |} |}.

(** The call [self.st(arg)]: a plain function runs to its result, a
    coroutine function only builds its coroutine object. *)
Definition call (cls : ModelClass) (st : Stage) (arg : PyVal) : M PyVal :=
  if iscoroutinefunction (method cls st)
  then ret (VCoroutine st arg)
  else run (method cls st) arg.

(** [await v] *)
Definition await (cls : ModelClass) (v : PyVal) : M PyVal :=
  match v with
  | VCoroutine st arg => run (method cls st) arg
  | _ => raise (TypeError "object can't be used in 'await' expression")
  end.

(** [await self.st(arg) if inspect.iscoroutinefunction(self.st)
     else self.st(arg)] *)
Definition await_if_coroutine (cls : ModelClass) (st : Stage) (arg : PyVal)
  : M PyVal :=
  if iscoroutinefunction (method cls st)
  then let* c := call cls st arg in await cls c
  else call cls st arg.

(** [KFModel.__call__]; [model_type] is [None] for an argument that is
    neither member of [ModelType]. *)
Definition __call__ (cls : ModelClass) (body : PyVal) (model_type : option ModelType)
  : M PyVal :=
  let* request := await_if_coroutine cls Preprocess body in
  let* request := of_result (validate request) in
  let* response :=
    match model_type with
    | Some EXPLAINER => await_if_coroutine cls Explain request
    | Some PREDICTOR => await_if_coroutine cls Predict request
    | None => raise NotImplementedError
    end in
  let* response := call cls Postprocess response in
  ret response.

End Methods.

(** ** A stubbed runtime

    A transport that answers every request with status 500 and body
    [boom], a JSON codec that only knows the empty object, and a gRPC stub
    whose call always faults. *)
Definition stub_runtime : Runtime :=
  {| decode_UTF8 := fun b => inr b;
     json_loads := fun v =>
       match v with
       | VStr "{}" | VBytes "{}" => inr (VDict ∅)
       | _ => inl (JSONDecodeError "Expecting value")
       end;
     json_dumps := fun v =>
       match v with
       | VDict d => if bool_decide (d = ∅) then inr "{}" else inr "{...}"
       | _ => inl (TypeError "Object is not JSON serializable")
       end;
     fetch := fun _ _ _ _ => inr {| code := 500; body := "boom" |};
     ModelInfer := fun _ _ _ => inl (TransportError "unavailable");
     get_response_as_json := fun _ => inr (VDict ∅) |}.

(** Request bodies and units used in the examples. *)
Definition six_keys (d : gmap string PyVal) : bool :=
  contains d "time" && contains d "type" && contains d "source"
  && contains d "id" && contains d "specversion" && contains d "data".

Definition event_dict (data : PyVal) : gmap string PyVal :=
  <["time" := VStr "2021-01-01T00:00:00Z"]>
  (<["type" := VStr "t"]>
  (<["source" := VStr "s"]>
  (<["id" := VStr "1"]>
  (<["specversion" := VStr "1.0"]>
  (<["data" := data]> ∅))))).

(** ** Vocabulary of the statements *)

(** The payloads [validate] rejects: a mapping in which [instances] or
    [inputs] is present with a value that is not a list. *)
Definition offending (p : PyVal) : Prop :=
  exists d k v, p = VDict d /\ (k = "instances" \/ k = "inputs")
                /\ d !! k = Some v /\ isinstance_list v = false.

(** The event declares the content type [ct]. *)
Definition declares (attributes : gmap string PyVal) (ct : string) : Prop :=
  attributes !! "content-type" = Some (VStr ct).

Definition json_flavoured (attributes : gmap string PyVal) : Prop :=
  declares attributes "application/json"
  \/ declares attributes "application/cloudevents+json".

(** The bytes fail UTF-8 JSON decoding, with message [e]. *)
Definition undecodable (rt : Runtime) (b : bytes) (e : string) : Prop :=
  loads_decoded rt b = inl (JSONDecodeError e)
  \/ loads_decoded rt b = inl (UnicodeDecodeError e).

(** A payload in none of the shapes the decoder unwraps. *)
Definition raw (q : PyVal) : bool :=
  match q with
  | VCloudEvent _ _ => false
  | VServeRequest _ => false
  | VDict d => negb (six_keys d)
  | _ => true
  end.

(** The unit once the [_http_client] property has been read. *)
Definition cached_http (u : KFModel) : KFModel :=
  match _http_client_instance u with
  | None => with_http_client_instance (Some {| max_clients := sys_maxsize |}) u
  | Some _ => u
  end.

Definition to_result {A} (r : Exn + A) : Result A :=
  match r with inl e => Raise e | inr a => Return a end.

(** What the HTTP path makes of the transport's answer to one POST. *)
Definition http_outcome (rt : Runtime) (url : string) (t : Z) (js : string)
  : Result PyVal :=
  match fetch rt url "POST" t js with
  | inl e => Raise e
  | inr response =>
      if code response =? 200
      then to_result (json_loads rt (VBytes (body response)))
      else Raise (HTTPError (code response) (VBytes (body response)))
  end.

(** What posting [request] to [url] does: the client is cached, the body
    is serialised, and if that succeeds the POST is made and its answer
    decides the result. *)
Definition post_json (rt : Runtime) (url : string) (request : PyVal)
  : M PyVal :=
  fun w =>
    match json_dumps rt request with
    | inl e => (Raise e, mkWorld (cached_http (self w)) (net w))
    | inr js =>
        (http_outcome rt url (timeout (self w)) js,
         mkWorld (cached_http (self w))
                 (net w ++ [HttpFetch url "POST" (timeout (self w)) js]))
    end.

(** The channel target for a host, and the unit once the [_grpc_client]
    property has created its stub for host [h]. *)
Definition grpc_target (h : string) : string :=
  if str_in ":" h then h else (h ++ ":80")%string.

Definition with_stub_created (h : string) (u : KFModel) : KFModel :=
  with_grpc_client_stub (Some {| channel_target := grpc_target h |})
    (if str_in ":" h then u
     else with_predictor_host (Some (h ++ ":80")%string) u).

(** The URL [_http_predict] builds. *)
Definition predict_url (u : KFModel) : string :=
  if String.eqb (protocol u) (value REST_V2)
  then PREDICTOR_V2_URL_FORMAT (str_of (predictor_host u)) (name u)
  else PREDICTOR_URL_FORMAT (str_of (predictor_host u)) (name u).

(** The error of a [fetch] call that names no [request]. *)
Definition fetch_TypeError : Exn :=
  TypeError "fetch() missing 1 required positional argument: 'request'".

(** What [explain] comes to once past its guard: the error of
    [json.dumps] if the request does not serialise, else the [TypeError] of
    the [fetch] call. *)
Definition explain_outcome (rt : Runtime) (request : PyVal) : Result PyVal :=
  match json_dumps rt request with
  | inl e => Raise e
  | inr _ => Raise fetch_TypeError
  end.

(** The dispatch step of [__call__] on [KFModel]'s own stages. *)
Definition dispatch (rt : Runtime) (model_type : option ModelType)
  (request : PyVal) : M PyVal :=
  match model_type with
  | Some EXPLAINER => explain rt request
  | Some PREDICTOR => predict rt request
  | None => raise NotImplementedError
  end.

Definition is_grpc (c : NetCall) : bool :=
  match c with
  | GrpcModelInfer _ _ _ => true
  | HttpFetch _ _ _ _ => false
  end.

(** The outbound calls made between two worlds. *)
Definition new_calls (w w' : World) : list NetCall :=
  drop (length (net w)) (net w').

(** The attributes no stage of [KFModel] assigns. *)
Definition same_config (u u' : KFModel) : Prop :=
  name u' = name u /\ ready u' = ready u /\ protocol u' = protocol u
  /\ explainer_host u' = explainer_host u /\ timeout u' = timeout u.

(** A unit that talks gRPC to a predictor given without a port. *)
Definition grpc_unit : KFModel :=
  {| name := "m";
     ready := true;
     protocol := value GRPC_V2;
     predictor_host := Some "predictor";
     explainer_host := None;
     timeout := 600;
     _http_client_instance := None;
     _grpc_client_stub := None |}.

(** A unit with both REST backends configured. *)
Definition rest_unit (p : PredictorProtocol) : KFModel :=
  {| name := "m";
     ready := true;
     protocol := value p;
     predictor_host := Some "predictor:8080";
     explainer_host := Some "explainer:8080";
     timeout := 600;
     _http_client_instance := None;
     _grpc_client_stub := None |}.

(** A unit whose explainer host is the empty string. *)
Definition empty_host_unit : KFModel :=
  {| name := "m";
     ready := true;
     protocol := value REST_V1;
     predictor_host := Some "";
     explainer_host := Some "";
     timeout := 600;
     _http_client_instance := None;
     _grpc_client_stub := None |}.

(** Two classes whose stage bodies do the same, whatever kind of function
    each stage is. *)
Definition same_bodies (c1 c2 : ModelClass) : Prop :=
  forall st arg w, run (method c1 st) arg w = run (method c2 st) arg w.

(** A stage override that hands its argument back, written as a plain
    function or as a coroutine function, and the class that overrides the
    four stages this way. *)
Definition echo (is_async : bool) : Method :=
  {| iscoroutinefunction := is_async; run := fun v => ret v |}.

Definition echo_class (pre pred expl post : bool) : ModelClass :=
  {| m_preprocess := echo pre;
     m_predict := echo pred;
     m_explain := echo expl;
     m_postprocess := echo post |}.

(** [isinstance(v, bytes)] *)
Definition isinstance_bytes (v : PyVal) : bool :=
  match v with VBytes _ => true | _ => false end.

Definition isinstance_ModelInferResponse (v : PyVal) : bool :=
  match v with VModelInferResponse _ => true | _ => false end.

(** Whether [validate] raises on a payload. *)
Definition rejects (p : PyVal) : bool :=
  match validate p with
  | Raise _ => true
  | Return _ => false
  end.

(** The timeout an outbound call was made with, and whether it is a POST
    (every gRPC call counts as one request). *)
Definition call_timeout (c : NetCall) : Z :=
  match c with
  | HttpFetch _ _ t _ => t
  | GrpcModelInfer _ _ t => t
  end.

Definition posts (c : NetCall) : bool :=
  match c with
  | HttpFetch _ m _ _ => String.eqb m "POST"
  | GrpcModelInfer _ _ _ => true
  end.

(** The stub a gRPC prediction uses on unit [u] with host [h]: the cached
    one if there is one, else a new stub for the host. *)
Definition stub_for (h : string) (u : KFModel) : GRPCInferenceServiceStub :=
  match _grpc_client_stub u with
  | Some stub => stub
  | None => {| channel_target := grpc_target h |}
  end.

Definition after_stub (h : string) (u : KFModel) : KFModel :=
  match _grpc_client_stub u with
  | Some _ => u
  | None => with_stub_created h u
  end.

(** * Properties *)

(** ** The validator *)

Lemma in_and_not_list_true d k :
  in_and_not_list d k = true <->
  exists v, d !! k = Some v /\ isinstance_list v = false.
Proof.
  unfold in_and_not_list. split.
  - destruct (d !! k) as [v|] eqn:E; [|discriminate].
    intros H. exists v. split; [reflexivity|].
    now apply negb_true_iff in H.
  - intros [v [-> Hv]]. now rewrite Hv.
Qed.

Lemma offending_dict d :
  offending (VDict d) <->
  in_and_not_list d "instances" || in_and_not_list d "inputs" = true.
Proof.
  rewrite orb_true_iff, !in_and_not_list_true. split.
  - intros (d' & k & v & Hd & Hk & Hl & Hv). injection Hd as <-.
    destruct Hk as [-> | ->]; [left | right]; eauto.
  - intros [[v [Hl Hv]] | [v [Hl Hv]]].
    + exists d, "instances", v. auto.
    + exists d, "inputs", v. auto.
Qed.

(** C1. [validate] fails with the 400 error, whose reason says that a list
    was expected, exactly on the payloads that are a mapping holding
    [instances] or [inputs] with a value that is not a list (the spec's
    sequence is Python's [list], as the reason says); every other payload,
    mapping or not, is returned unchanged. *)
Theorem validate_spec (p : PyVal) :
  (offending p ->
   validate p = Raise (HTTPError 400 (VStr validate_reason)))
  /\ (~ offending p -> validate p = Return p).
Proof.
  destruct p; try (split; [intros (d' & k & v & Hd & _); discriminate Hd
                          | reflexivity]).
  pose proof (offending_dict d) as Hoff. cbn [validate].
  destruct (in_and_not_list d "instances" || in_and_not_list d "inputs").
  - split; [reflexivity | intros Hn; exfalso; apply Hn, Hoff; reflexivity].
  - split; [intros Ho; apply Hoff in Ho; discriminate | reflexivity].
Qed.

Lemma validate_spec_witness :
  validate (VDict {["inputs" := VStr "abc"]})
    = Raise (HTTPError 400 (VStr validate_reason))
  /\ validate (VDict {["instances" := VList [VInt 1]]})
    = Return (VDict {["instances" := VList [VInt 1]]})
  /\ validate (VModelInferRequest "m") = Return (VModelInferRequest "m").
Proof.
  split; [|split].
  - apply (proj1 (validate_spec _)).
    exists {["inputs" := VStr "abc"]}, "inputs", (VStr "abc").
    repeat split; auto.
  - apply (proj2 (validate_spec _)).
    intros (d & k & v & Hd & Hk & Hl & Hv). injection Hd as <-.
    destruct Hk as [-> | ->]; vm_compute in Hl.
    + injection Hl as <-. discriminate Hv.
    + discriminate Hl.
  - apply (proj2 (validate_spec _)).
    intros (d & k & v & Hd & _). discriminate Hd.
Defined.

(** ** The envelope decoder *)

Lemma eq_str_true v s : eq_str v s = true <-> v = VStr s.
Proof.
  destruct v; cbn; try (split; [discriminate | intros H; discriminate H]).
  rewrite String.eqb_eq. split; [now intros -> | now intros [= ->]].
Qed.

Lemma json_content_type_true attributes :
  json_content_type attributes = true <-> json_flavoured attributes.
Proof.
  unfold json_content_type, json_flavoured, declares.
  destruct (attributes !! "content-type") as [ct|].
  - rewrite orb_true_iff, !eq_str_true. split.
    + intros [-> | ->]; auto.
    + intros [[= ->] | [= ->]]; auto.
  - split; [discriminate | intros [H | H]; discriminate H].
Qed.

Lemma preprocess_event_undecodable rt attributes b e w :
  undecodable rt b e ->
  preprocess rt (VCloudEvent attributes (VBytes b)) w
  = on_decode_error attributes e (VBytes b) w.
Proof. intros [H | H]; cbn [preprocess]; now rewrite H. Qed.

(** C5. For a structured event whose [data] is a byte buffer that fails
    UTF-8 JSON decoding, [preprocess] raises the 400 client error if and
    only if the declared [content-type] is [application/json] or
    [application/cloudevents+json]; with any other declared content type,
    or none, it returns the raw bytes unchanged. *)
Theorem preprocess_undecodable_bytes rt attributes b e w :
  undecodable rt b e ->
  ((exists reason, preprocess rt (VCloudEvent attributes (VBytes b)) w
                   = (Raise (HTTPError 400 reason), w))
   <-> json_flavoured attributes)
  /\ (~ json_flavoured attributes ->
      preprocess rt (VCloudEvent attributes (VBytes b)) w
      = (Return (VBytes b), w)).
Proof.
  intros Hu. rewrite (preprocess_event_undecodable _ _ _ _ _ Hu).
  unfold on_decode_error. pose proof (json_content_type_true attributes) as Hj.
  destruct (json_content_type attributes).
  - split.
    + split; [intros _; now apply Hj | intros _; eexists; reflexivity].
    + intros Hn. exfalso. apply Hn. now apply Hj.
  - split.
    + split; [intros [r Hr]; discriminate Hr
             | intros H; apply Hj in H; discriminate H].
    + reflexivity.
Qed.

Lemma preprocess_undecodable_bytes_witness :
  (exists reason,
     preprocess stub_runtime
       (VCloudEvent {["content-type" := VStr "application/json"]}
                    (VBytes "not json")) (mkWorld (__init__ "m") [])
     = (Raise (HTTPError 400 reason), mkWorld (__init__ "m") []))
  /\ preprocess stub_runtime
       (VCloudEvent {["content-type" := VStr "text/plain"]} (VBytes "not json"))
       (mkWorld (__init__ "m") [])
     = (Return (VBytes "not json"), mkWorld (__init__ "m") [])
  /\ preprocess stub_runtime (VCloudEvent ∅ (VBytes "not json"))
       (mkWorld (__init__ "m") [])
     = (Return (VBytes "not json"), mkWorld (__init__ "m") []).
Proof.
  assert (Hu : undecodable stub_runtime "not json" "Expecting value")
    by (left; reflexivity).
  split; [|split].
  - apply (proj1 (preprocess_undecodable_bytes _ _ _ _ _ Hu)).
    left. reflexivity.
  - apply (proj2 (preprocess_undecodable_bytes _ _ _ _ _ Hu)).
    intros [H | H]; vm_compute in H; discriminate H.
  - apply (proj2 (preprocess_undecodable_bytes _ _ _ _ _ Hu)).
    intros [H | H]; vm_compute in H; discriminate H.
Defined.

Lemma preprocess_dict rt d w :
  preprocess rt (VDict d) w
  = (if six_keys d
     then match d !! "data" with
          | Some v => Return v
          | None => Raise (KeyError "data")
          end
     else Return (VDict d), w).
Proof.
  cbn [preprocess]. fold (six_keys d).
  destruct (six_keys d); [|reflexivity].
  destruct (d !! "data"); reflexivity.
Qed.

Lemma six_keys_data d :
  six_keys d = true -> exists v, d !! "data" = Some v.
Proof.
  unfold six_keys. rewrite !andb_true_iff. intros [_ H].
  unfold contains in H. destruct (d !! "data") as [v|]; [eauto | discriminate].
Qed.

(** On a payload that is in none of the enveloped shapes the decoder is the
    identity. *)
Lemma preprocess_raw rt q w :
  raw q = true -> preprocess rt q w = (Return q, w).
Proof.
  destruct q; cbn [raw]; try discriminate; try reflexivity.
  intros H. apply negb_true_iff in H. now rewrite preprocess_dict, H.
Qed.

(** A structured event carried as a plain object whose [data] is again such
    an object: each call of the decoder removes one layer. *)
Lemma preprocess_twice_counterexample :
  let inner := VDict (event_dict (VInt 1)) in
  let p := VDict (event_dict inner) in
  let w := mkWorld (__init__ "m") [] in
  preprocess stub_runtime p w = (Return inner, w)
  /\ bind (preprocess stub_runtime p) (preprocess stub_runtime) w
     = (Return (VInt 1), w)
  /\ bind (preprocess stub_runtime p) (preprocess stub_runtime) w
     <> preprocess stub_runtime p w.
Proof.
  cbv zeta.
  assert (H1 : preprocess stub_runtime
                 (VDict (event_dict (VDict (event_dict (VInt 1)))))
                 (mkWorld (__init__ "m") [])
               = (Return (VDict (event_dict (VInt 1))),
                  mkWorld (__init__ "m") []))
    by (rewrite preprocess_dict; vm_compute; reflexivity).
  assert (H2 : preprocess stub_runtime (VDict (event_dict (VInt 1)))
                 (mkWorld (__init__ "m") [])
               = (Return (VInt 1), mkWorld (__init__ "m") []))
    by (rewrite preprocess_dict; vm_compute; reflexivity).
  split; [exact H1|].
  unfold bind at 1. rewrite H1, H2. split; [reflexivity|].
  unfold bind. rewrite H1, H2. intros H. discriminate H.
Qed.

(** C6 (amended). Decoding a mapping never fails and touches neither the
    unit nor the network.  A mapping that lacks one of the six keys is
    returned unchanged, so it is a fixed point; a mapping with all six is
    unwrapped by one layer, to its [data] field; and decoding twice equals
    decoding once whenever the first result is in none of the enveloped
    shapes (six-key mapping, structured event, framework request). *)
Theorem preprocess_dict_idempotent rt (d : gmap string PyVal) w :
  exists q,
    preprocess rt (VDict d) w = (Return q, w)
    /\ (six_keys d = false -> q = VDict d)
    /\ (six_keys d = true -> d !! "data" = Some q)
    /\ (raw q = true ->
        bind (preprocess rt (VDict d)) (preprocess rt) w
        = preprocess rt (VDict d) w).
Proof.
  destruct (six_keys d) eqn:E.
  - destruct (six_keys_data d E) as [v Hv]. exists v.
    assert (Hp : preprocess rt (VDict d) w = (Return v, w))
      by now rewrite preprocess_dict, E, Hv.
    repeat split; [exact Hp | discriminate | intros _; exact Hv |].
    intros Hr. unfold bind. rewrite Hp. now apply preprocess_raw.
  - exists (VDict d).
    assert (Hp : preprocess rt (VDict d) w = (Return (VDict d), w))
      by now rewrite preprocess_dict, E.
    repeat split; [exact Hp | discriminate |].
    intros _. unfold bind. now rewrite Hp, Hp.
Qed.

Lemma preprocess_dict_idempotent_witness :
  exists q,
    preprocess stub_runtime (VDict (event_dict (VList [VInt 1])))
      (mkWorld (__init__ "m") [])
    = (Return q, mkWorld (__init__ "m") [])
    /\ bind (preprocess stub_runtime (VDict (event_dict (VList [VInt 1]))))
         (preprocess stub_runtime) (mkWorld (__init__ "m") [])
       = preprocess stub_runtime (VDict (event_dict (VList [VInt 1])))
           (mkWorld (__init__ "m") []).
Proof.
  destruct (preprocess_dict_idempotent stub_runtime
              (event_dict (VList [VInt 1])) (mkWorld (__init__ "m") []))
    as (q & Hq & _ & Hd & Hi).
  exists q. split; [exact Hq|]. apply Hi.
  assert (Hs : six_keys (event_dict (VList [VInt 1])) = true)
    by (vm_compute; reflexivity).
  specialize (Hd Hs). vm_compute in Hd. injection Hd as <-. reflexivity.
Defined.

(** ** Equations of the stateful methods *)

Ltac run :=
  unfold bind, ret, raise, lift, of_result, get_self, set_self, emit; cbn.

Lemma post_json_eq rt url request u nets :
  post_json rt url request (mkWorld u nets)
  = match json_dumps rt request with
    | inl e => (Raise e, mkWorld (cached_http u) nets)
    | inr js =>
        (http_outcome rt url (timeout u) js,
         mkWorld (cached_http u)
                 (nets ++ [HttpFetch url "POST" (timeout u) js]))
    end.
Proof. reflexivity. Qed.

Ltac run_post rt request u :=
  unfold post_json, _http_client, AsyncHTTPClient_fetch, cached_http,
    http_outcome, to_result; run;
  destruct (_http_client_instance u); run;
  destruct (json_dumps rt request) as [?|js]; run; try reflexivity;
  match goal with
  | |- context [fetch rt ?url "POST" (timeout u) js] =>
      destruct (fetch rt url "POST" (timeout u) js) as [?|r]; run;
      try reflexivity;
      destruct (code r =? 200); run; try reflexivity;
      destruct (json_loads rt (VBytes (body r))); reflexivity
  end.

Lemma lift_eq {A} (r : Exn + A) w : lift r w = (to_result r, w).
Proof. now destruct r. Qed.

Lemma _grpc_client_eq u nets :
  _grpc_client (mkWorld u nets)
  = match _grpc_client_stub u with
    | Some stub => (Return stub, mkWorld u nets)
    | None =>
        match predictor_host u with
        | None => (Raise (TypeError "argument of type 'NoneType' is not iterable"),
                   mkWorld u nets)
        | Some h => (Return {| channel_target := grpc_target h |},
                     mkWorld (with_stub_created h u) nets)
        end
    end.
Proof.
  unfold _grpc_client, with_stub_created, grpc_target. run.
  destruct (_grpc_client_stub u); [reflexivity|].
  destruct (predictor_host u) as [h|] eqn:Eh; [|reflexivity]. run.
  destruct (str_in ":" h); run; [rewrite Eh|]; reflexivity.
Qed.

Lemma _grpc_predict_eq rt request u nets :
  _grpc_predict rt request (mkWorld u nets)
  = match _grpc_client_stub u with
    | Some stub =>
        (to_result (ModelInfer rt (channel_target stub) request (timeout u)),
         mkWorld u (nets ++ [GrpcModelInfer (channel_target stub) request
                                            (timeout u)]))
    | None =>
        match predictor_host u with
        | None => (Raise (TypeError "argument of type 'NoneType' is not iterable"),
                   mkWorld u nets)
        | Some h =>
            (to_result (ModelInfer rt (grpc_target h) request (timeout u)),
             mkWorld (with_stub_created h u)
                     (nets ++ [GrpcModelInfer (grpc_target h) request
                                              (timeout u)]))
        end
    end.
Proof.
  unfold _grpc_predict, Stub_ModelInfer. unfold bind at 1.
  rewrite _grpc_client_eq.
  destruct (_grpc_client_stub u) as [stub|].
  - run. now destruct (ModelInfer rt (channel_target stub) request (timeout u)).
  - destruct (predictor_host u) as [h|]; [|reflexivity].
    run. unfold with_stub_created.
    destruct (str_in ":" h); cbn;
      now destruct (ModelInfer rt (grpc_target h) request (timeout u)).
Qed.

Lemma _http_predict_eq rt request u nets :
  _http_predict rt request (mkWorld u nets)
  = post_json rt (predict_url u) request (mkWorld u nets).
Proof.
  unfold _http_predict, predict_url. run.
  destruct (String.eqb (protocol u) "v2"); run_post rt request u.
Qed.

Lemma predict_eq rt request u nets :
  predict rt request (mkWorld u nets)
  = if falsy (predictor_host u) then (Raise NotImplementedError, mkWorld u nets)
    else if String.eqb (protocol u) (value GRPC_V2)
         then _grpc_predict rt request (mkWorld u nets)
         else post_json rt (predict_url u) request (mkWorld u nets).
Proof.
  unfold predict. run.
  destruct (falsy (predictor_host u)); [reflexivity|].
  destruct (String.eqb (protocol u) "grpc-v2"); [reflexivity|].
  apply _http_predict_eq.
Qed.

Lemma explain_eq rt request u nets :
  explain rt request (mkWorld u nets)
  = match explainer_host u with
    | None => (Raise NotImplementedError, mkWorld u nets)
    | Some _ => (explain_outcome rt request, mkWorld (cached_http u) nets)
    end.
Proof.
  unfold explain, explain_outcome, _http_client,
    AsyncHTTPClient_fetch_by_url, cached_http. run.
  destruct (explainer_host u) as [h|]; [|reflexivity]. run.
  destruct (_http_client_instance u); run;
    destruct (json_dumps rt request); reflexivity.
Qed.

Lemma preprocess_world rt body w : snd (preprocess rt body w) = w.
Proof.
  destruct body as [| | | | | |d|attributes data|data| | |]; try reflexivity.
  - rewrite preprocess_dict. reflexivity.
  - cbn [preprocess]. destruct data as [| | | |b| | | | | | |]; try reflexivity.
    destruct (loads_decoded rt b) as [[]|]; try reflexivity;
      unfold on_decode_error; destruct (json_content_type attributes);
      reflexivity.
Qed.

Lemma postprocess_world rt response w : snd (postprocess rt response w) = w.
Proof.
  destruct response; try reflexivity. cbn [postprocess]. now rewrite lift_eq.
Qed.

Lemma call_base_eq rt body model_type w :
  __call__ (base rt) body model_type w
  = match preprocess rt body w with
    | (Raise e, w1) => (Raise e, w1)
    | (Return r, w1) =>
        match validate r with
        | Raise e => (Raise e, w1)
        | Return request =>
            match dispatch rt model_type request w1 with
            | (Raise e, w2) => (Raise e, w2)
            | (Return response, w2) => postprocess rt response w2
            end
        end
    end.
Proof.
  unfold __call__, await_if_coroutine, call, await, dispatch.
  cbv beta iota delta [base method iscoroutinefunction run m_preprocess
                         m_predict m_explain m_postprocess bind ret of_result].
  destruct (preprocess rt body w) as [[r|e] w1]; [|reflexivity].
  destruct (validate r) as [request|e]; [|reflexivity].
  destruct model_type as [[]|]; try reflexivity.
  - destruct (explain rt request w1) as [[response|e] w2]; [|reflexivity].
    destruct (postprocess rt response w2) as [[]]; reflexivity.
  - destruct (predict rt request w1) as [[response|e] w2]; [|reflexivity].
    destruct (postprocess rt response w2) as [[]]; reflexivity.
Qed.

Lemma call_base_dispatch rt body model_type w r request :
  fst (preprocess rt body w) = Return r ->
  validate r = Return request ->
  __call__ (base rt) body model_type w
  = match dispatch rt model_type request w with
    | (Raise e, w2) => (Raise e, w2)
    | (Return response, w2) => postprocess rt response w2
    end.
Proof.
  intros Hpre Hval. rewrite call_base_eq.
  pose proof (preprocess_world rt body w) as Hw.
  destruct (preprocess rt body w) as [r' w1]; cbn in Hw, Hpre; subst w1 r'.
  now rewrite Hval.
Qed.

(** ** The orchestrator on [KFModel]'s own stages *)

(** With a request body that names [instances] but gives no list, the call
    ends in the validator's 400 error although no predictor host is set. *)
Lemma call_without_host_counterexample :
  fst (__call__ (base stub_runtime) (VDict {["instances" := VInt 1]})
         (Some PREDICTOR) (mkWorld (__init__ "m") []))
  = Raise (HTTPError 400 (VStr validate_reason))
  /\ fst (__call__ (base stub_runtime) (VDict {["instances" := VInt 1]})
            (Some PREDICTOR) (mkWorld (__init__ "m") []))
     <> Raise NotImplementedError.
Proof.
  assert (H : fst (__call__ (base stub_runtime)
                     (VDict {["instances" := VInt 1]})
                     (Some PREDICTOR) (mkWorld (__init__ "m") []))
              = Raise (HTTPError 400 (VStr validate_reason)))
    by (vm_compute; reflexivity).
  split; [exact H | rewrite H; discriminate].
Qed.

(** C4 (amended). On a unit whose predictor host is not set ([None] or the
    empty string) a PREDICT call always fails and leaves the world as it
    was: no HTTP fetch, no gRPC call, no attribute assigned.  The failure
    is the unimplemented-operation error whenever decoding and validation
    succeed; otherwise it is the error of the decoder or of the validator,
    which abort the call before dispatch. *)
Theorem call_predict_without_host rt body u nets :
  falsy (predictor_host u) = true ->
  snd (__call__ (base rt) body (Some PREDICTOR) (mkWorld u nets))
  = mkWorld u nets
  /\ fst (__call__ (base rt) body (Some PREDICTOR) (mkWorld u nets))
     = match fst (preprocess rt body (mkWorld u nets)) with
       | Raise e => Raise e
       | Return r =>
           match validate r with
           | Raise e => Raise e
           | Return _ => Raise NotImplementedError
           end
       end.
Proof.
  intros Hf. rewrite call_base_eq.
  pose proof (preprocess_world rt body (mkWorld u nets)) as Hw.
  destruct (preprocess rt body (mkWorld u nets)) as [[r|e] w1];
    cbn in Hw; subst w1; [|split; reflexivity].
  cbn [fst]. destruct (validate r) as [request|e]; [|split; reflexivity].
  cbn [dispatch]. rewrite predict_eq, Hf. split; reflexivity.
Qed.

Lemma call_predict_without_host_witness :
  snd (__call__ (base stub_runtime) (VDict ∅) (Some PREDICTOR)
         (mkWorld (__init__ "m") []))
  = mkWorld (__init__ "m") []
  /\ fst (__call__ (base stub_runtime) (VDict ∅) (Some PREDICTOR)
            (mkWorld (__init__ "m") []))
     = Raise NotImplementedError.
Proof.
  assert (Hf : falsy (predictor_host (__init__ "m")) = true) by reflexivity.
  destruct (call_predict_without_host stub_runtime (VDict ∅) (__init__ "m")
              [] Hf) as [Hs Hr].
  split; [exact Hs | rewrite Hr; reflexivity].
Defined.

(** The first gRPC prediction on a host given without a port rewrites
    [predictor_host]. *)
Lemma call_frame_counterexample :
  predictor_host grpc_unit = Some "predictor"
  /\ predictor_host
       (self (snd (__call__ (base stub_runtime) (VDict ∅) (Some PREDICTOR)
                     (mkWorld grpc_unit []))))
     = Some "predictor:80"
  /\ predictor_host
       (self (snd (__call__ (base stub_runtime) (VDict ∅) (Some PREDICTOR)
                     (mkWorld grpc_unit []))))
     <> predictor_host grpc_unit.
Proof.
  assert (H : predictor_host
                (self (snd (__call__ (base stub_runtime) (VDict ∅)
                              (Some PREDICTOR) (mkWorld grpc_unit []))))
              = Some "predictor:80")
    by (vm_compute; reflexivity).
  split; [reflexivity | split; [exact H | rewrite H; discriminate]].
Qed.

Lemma same_config_refl u : same_config u u.
Proof. repeat split. Qed.

Lemma same_config_cached_http u : same_config u (cached_http u).
Proof. unfold cached_http. destruct (_http_client_instance u); repeat split. Qed.

Lemma same_config_stub_created h u : same_config u (with_stub_created h u).
Proof. unfold with_stub_created. destruct (str_in ":" h); repeat split. Qed.

Lemma post_json_self rt url request u nets :
  self (snd (post_json rt url request (mkWorld u nets))) = cached_http u.
Proof. rewrite post_json_eq. now destruct (json_dumps rt request). Qed.

(** What a dispatch does to the unit. *)
Lemma dispatch_self rt model_type request u nets :
  let u' := self (snd (dispatch rt model_type request (mkWorld u nets))) in
  u' = u \/ u' = cached_http u
  \/ (model_type = Some PREDICTOR /\ protocol u = value GRPC_V2
      /\ _grpc_client_stub u = None
      /\ exists h, predictor_host u = Some h /\ u' = with_stub_created h u).
Proof.
  destruct model_type as [[]|]; cbn [dispatch].
  - rewrite explain_eq. destruct (explainer_host u); [|now left].
    right; left. reflexivity.
  - rewrite predict_eq. destruct (falsy (predictor_host u)); [now left|].
    destruct (String.eqb (protocol u) (value GRPC_V2)) eqn:Ep.
    + apply String.eqb_eq in Ep. rewrite _grpc_predict_eq.
      destruct (_grpc_client_stub u); [now left|].
      destruct (predictor_host u) as [h|]; [|now left].
      right; right. repeat split; eauto.
    + right; left. apply post_json_self.
  - now left.
Qed.

Lemma call_base_self rt body model_type u nets :
  self (snd (__call__ (base rt) body model_type (mkWorld u nets))) = u
  \/ exists request,
       self (snd (__call__ (base rt) body model_type (mkWorld u nets)))
       = self (snd (dispatch rt model_type request (mkWorld u nets))).
Proof.
  rewrite call_base_eq.
  pose proof (preprocess_world rt body (mkWorld u nets)) as Hw.
  destruct (preprocess rt body (mkWorld u nets)) as [[r|e] w1];
    cbn in Hw; subst w1; [|now left].
  destruct (validate r) as [request|e]; [|now left].
  right. exists request.
  destruct (dispatch rt model_type request (mkWorld u nets))
    as [[response|e] w2]; [|reflexivity].
  now rewrite postprocess_world.
Qed.

(** C2 (amended). A call on [KFModel]'s own stages leaves [name], [ready],
    [protocol], [explainer_host] and [timeout] as they were, for every
    operation and protocol.  [predictor_host] is left as it was too, except
    by a PREDICT call under protocol [grpc-v2] that creates the gRPC stub
    (none cached yet) for a host without a colon: there [:80] is appended
    to the attribute. *)
Theorem call_frame rt body model_type u nets :
  let u' := self (snd (__call__ (base rt) body model_type (mkWorld u nets))) in
  same_config u u'
  /\ (predictor_host u' <> predictor_host u ->
      model_type = Some PREDICTOR /\ protocol u = value GRPC_V2
      /\ _grpc_client_stub u = None
      /\ exists h, predictor_host u = Some h /\ str_in ":" h = false
                   /\ predictor_host u' = Some (h ++ ":80")%string).
Proof.
  cbv zeta.
  destruct (call_base_self rt body model_type u nets) as [-> | [request ->]].
  { split; [apply same_config_refl | congruence]. }
  destruct (dispatch_self rt model_type request u nets)
    as [-> | [-> | (Hm & Hp & Hs & h & Hh & ->)]].
  - split; [apply same_config_refl | congruence].
  - split; [apply same_config_cached_http|].
    unfold cached_http. destruct (_http_client_instance u); cbn; congruence.
  - split; [apply same_config_stub_created|].
    unfold with_stub_created. destruct (str_in ":" h) eqn:Ec; cbn.
    + congruence.
    + intros _. repeat split; eauto.
Qed.

Lemma call_frame_witness :
  protocol grpc_unit = value GRPC_V2
  /\ exists h, predictor_host grpc_unit = Some h /\ str_in ":" h = false
     /\ predictor_host
          (self (snd (__call__ (base stub_runtime) (VDict ∅) (Some PREDICTOR)
                        (mkWorld grpc_unit []))))
        = Some (h ++ ":80")%string.
Proof.
  destruct (call_frame stub_runtime (VDict ∅) (Some PREDICTOR) grpc_unit [])
    as [_ H].
  destruct H as (_ & Hp & _ & h & Hh & Hc & Hn).
  - vm_compute. discriminate.
  - split; [exact Hp|]. exists h. auto.
Defined.

(** ** Dispatch: URLs, transports and guards *)

Lemma new_calls_app u u' nets new :
  new_calls (mkWorld u nets) (mkWorld u' (nets ++ new)) = new.
Proof. unfold new_calls. cbn. apply drop_app_length. Qed.

Lemma new_calls_nil u u' nets :
  new_calls (mkWorld u nets) (mkWorld u' nets) = [].
Proof. unfold new_calls. cbn. apply drop_all. Qed.

Lemma post_json_calls rt url request u nets :
  new_calls (mkWorld u nets) (snd (post_json rt url request (mkWorld u nets)))
  = match json_dumps rt request with
    | inl _ => []
    | inr js => [HttpFetch url "POST" (timeout u) js]
    end.
Proof.
  rewrite post_json_eq. destruct (json_dumps rt request); cbn [snd].
  - apply new_calls_nil.
  - apply new_calls_app.
Qed.






Lemma explain_calls rt request u nets :
  new_calls (mkWorld u nets) (snd (explain rt request (mkWorld u nets))) = [].
Proof.
  rewrite explain_eq. destruct (explainer_host u); apply new_calls_nil.
Qed.

Lemma explain_stub rt request u nets :
  _grpc_client_stub (self (snd (explain rt request (mkWorld u nets))))
  = _grpc_client_stub u.
Proof.
  rewrite explain_eq. destruct (explainer_host u); [|reflexivity].
  cbn [snd self]. unfold cached_http.
  now destruct (_http_client_instance u).
Qed.

Lemma predict_calls_grpc rt request u nets :
  existsb is_grpc
    (new_calls (mkWorld u nets) (snd (predict rt request (mkWorld u nets))))
  = true ->
  protocol u = value GRPC_V2.
Proof.
  rewrite predict_eq. destruct (falsy (predictor_host u)).
  { cbn [snd]. rewrite new_calls_nil. discriminate. }
  destruct (String.eqb (protocol u) (value GRPC_V2)) eqn:Ep.
  { intros _. now apply String.eqb_eq in Ep. }
  rewrite post_json_calls. destruct (json_dumps rt request); discriminate.
Qed.

Lemma call_base_calls rt body model_type u nets :
  new_calls (mkWorld u nets)
    (snd (__call__ (base rt) body model_type (mkWorld u nets))) = []
  \/ exists request,
       new_calls (mkWorld u nets)
         (snd (__call__ (base rt) body model_type (mkWorld u nets)))
       = new_calls (mkWorld u nets)
           (snd (dispatch rt model_type request (mkWorld u nets))).
Proof.
  rewrite call_base_eq.
  pose proof (preprocess_world rt body (mkWorld u nets)) as Hw.
  destruct (preprocess rt body (mkWorld u nets)) as [[r|e] w1];
    cbn in Hw; subst w1; [|left; apply new_calls_nil].
  destruct (validate r) as [request|e]; [|left; apply new_calls_nil].
  right. exists request.
  destruct (dispatch rt model_type request (mkWorld u nets))
    as [[response|e] w2]; [|reflexivity].
  now rewrite postprocess_world.
Qed.

(** C9. The gRPC stub serves predictions only.  Whatever the protocol, the
    explain stage makes no gRPC call and leaves the stub attribute alone,
    and a call of the orchestrator that reaches the gRPC stub is a PREDICT
    under protocol [grpc-v2].  But the explain stage does not dispatch over
    HTTP either: with an explainer host set it reads the HTTP client,
    serialises the request and then fails in the [fetch] call with
    [TypeError], under every protocol, so that it makes no outbound call at
    all. *)
Theorem grpc_only_for_predict rt :
  (forall request u nets,
     existsb is_grpc
       (new_calls (mkWorld u nets) (snd (explain rt request (mkWorld u nets))))
     = false
     /\ _grpc_client_stub (self (snd (explain rt request (mkWorld u nets))))
        = _grpc_client_stub u)
  /\ (forall request u nets h js,
        explainer_host u = Some h ->
        json_dumps rt request = inr js ->
        explain rt request (mkWorld u nets)
        = (Raise fetch_TypeError, mkWorld (cached_http u) nets)
        /\ new_calls (mkWorld u nets)
             (snd (explain rt request (mkWorld u nets))) = [])
  /\ (forall body model_type u nets,
        existsb is_grpc
          (new_calls (mkWorld u nets)
             (snd (__call__ (base rt) body model_type (mkWorld u nets))))
        = true ->
        model_type = Some PREDICTOR /\ protocol u = value GRPC_V2).
Proof.
  split; [|split].
  - intros request u nets. split; [|apply explain_stub].
    now rewrite explain_calls.
  - intros request u nets h js Hh Hj. split; [|apply explain_calls].
    rewrite explain_eq, Hh. unfold explain_outcome. now rewrite Hj.
  - intros body model_type u nets.
    destruct (call_base_calls rt body model_type u nets) as [-> | [request ->]];
      [discriminate|].
    destruct model_type as [[]|]; cbn [dispatch].
    + rewrite explain_calls. discriminate.
    + intros H. split; [reflexivity|]. now apply predict_calls_grpc in H.
    + unfold raise. cbn [snd]. rewrite new_calls_nil. discriminate.
Qed.

Lemma grpc_only_for_predict_witness :
  explain stub_runtime (VDict ∅) (mkWorld (rest_unit GRPC_V2) [])
  = (Raise fetch_TypeError, mkWorld (cached_http (rest_unit GRPC_V2)) [])
  /\ protocol grpc_unit = value GRPC_V2.
Proof.
  destruct (grpc_only_for_predict stub_runtime) as (_ & Hexp & Hgrpc).
  split.
  - apply (Hexp (VDict ∅) (rest_unit GRPC_V2) [] "explainer:8080" "{}").
    + reflexivity.
    + reflexivity.
  - apply (Hgrpc (VDict ∅) (Some PREDICTOR) grpc_unit []).
    vm_compute. reflexivity.
Defined.

(** C10. The two host guards differ.  [predict] raises the
    unimplemented-operation error whenever [predictor_host] is [None] or
    the empty string; [explain] raises it when [explainer_host] is [None],
    and for any other value, the empty string included, goes past the guard:
    it builds the explain URL, reads the HTTP client (creating it if need
    be), serialises the request and calls [fetch].  That call, made with the
    keyword [url], raises [TypeError]; when the request does not serialise
    the error of [json.dumps] comes first. *)
Theorem host_guards rt request u nets :
  (predictor_host u = None \/ predictor_host u = Some "" ->
   predict rt request (mkWorld u nets)
   = (Raise NotImplementedError, mkWorld u nets))
  /\ (explainer_host u = None ->
      explain rt request (mkWorld u nets)
      = (Raise NotImplementedError, mkWorld u nets))
  /\ (forall h js,
        explainer_host u = Some h ->
        json_dumps rt request = inr js ->
        explain rt request (mkWorld u nets)
        = (Raise fetch_TypeError, mkWorld (cached_http u) nets))
  /\ (forall h e,
        explainer_host u = Some h ->
        json_dumps rt request = inl e ->
        explain rt request (mkWorld u nets)
        = (Raise e, mkWorld (cached_http u) nets)).
Proof.
  split; [|split; [|split]].
  - intros Hh. rewrite predict_eq.
    now destruct Hh as [-> | ->].
  - intros Hh. now rewrite explain_eq, Hh.
  - intros h js Hh Hj. rewrite explain_eq, Hh. unfold explain_outcome.
    now rewrite Hj.
  - intros h e Hh Hj. rewrite explain_eq, Hh. unfold explain_outcome.
    now rewrite Hj.
Qed.

Lemma host_guards_witness :
  predict stub_runtime (VDict ∅) (mkWorld empty_host_unit [])
  = (Raise NotImplementedError, mkWorld empty_host_unit [])
  /\ explain stub_runtime (VDict ∅) (mkWorld (__init__ "m") [])
     = (Raise NotImplementedError, mkWorld (__init__ "m") [])
  /\ explain stub_runtime (VDict ∅) (mkWorld empty_host_unit [])
     = (Raise fetch_TypeError, mkWorld (cached_http empty_host_unit) []).
Proof.
  split; [|split].
  - apply (proj1 (host_guards stub_runtime (VDict ∅) empty_host_unit [])).
    right. reflexivity.
  - apply (proj1 (proj2 (host_guards stub_runtime (VDict ∅) (__init__ "m") []))).
    reflexivity.
  - apply (proj1 (proj2 (proj2 (host_guards stub_runtime (VDict ∅)
                                  empty_host_unit [])))
             "" "{}"); reflexivity.
Defined.

(** ** Plain and coroutine stage overrides *)

Lemma await_if_coroutine_eq cls st arg w :
  await_if_coroutine cls st arg w = run (method cls st) arg w.
Proof.
  unfold await_if_coroutine, call.
  destruct (iscoroutinefunction (method cls st)); reflexivity.
Qed.

Lemma bind_ext {A B} (c1 c2 : M A) (k1 k2 : A -> M B) w :
  c1 w = c2 w -> (forall a w', k1 a w' = k2 a w') ->
  bind c1 k1 w = bind c2 k2 w.
Proof.
  intros Hc Hk. unfold bind. rewrite Hc.
  destruct (c2 w) as [[a|e] w']; [apply Hk | reflexivity].
Qed.

(** A [postprocess] written as a coroutine function is never awaited: the
    caller receives its coroutine object instead of the value. *)
Lemma call_sync_async_counterexample :
  same_bodies (echo_class false false false false)
              (echo_class false false false true)
  /\ fst (__call__ (echo_class false false false false) (VDict ∅)
            (Some PREDICTOR) (mkWorld (__init__ "m") []))
     = Return (VDict ∅)
  /\ fst (__call__ (echo_class false false false true) (VDict ∅)
            (Some PREDICTOR) (mkWorld (__init__ "m") []))
     = Return (VCoroutine Postprocess (VDict ∅))
  /\ __call__ (echo_class false false false false) (VDict ∅)
       (Some PREDICTOR) (mkWorld (__init__ "m") [])
     <> __call__ (echo_class false false false true) (VDict ∅)
          (Some PREDICTOR) (mkWorld (__init__ "m") []).
Proof.
  split; [|split; [|split]].
  - intros [] arg w; reflexivity.
  - reflexivity.
  - reflexivity.
  - intros H. apply (f_equal fst) in H. discriminate H.
Qed.

(** C3 (amended). For [preprocess], [predict] and [explain] the
    orchestrator awaits a coroutine function and calls a plain one, so two
    classes whose stage bodies agree give the same result of every call
    whichever form each of these three stages has, provided their
    [postprocess] has the same form.  [postprocess] itself is always called
    as a plain function: when it is a coroutine function, whatever the call
    returns is its coroutine object, not yet run. *)
Theorem call_sync_async c1 c2 :
  same_bodies c1 c2 ->
  (iscoroutinefunction (m_postprocess c1)
   = iscoroutinefunction (m_postprocess c2) ->
   forall body model_type w,
     __call__ c1 body model_type w = __call__ c2 body model_type w)
  /\ (iscoroutinefunction (m_postprocess c1) = true ->
      forall body model_type w v,
        fst (__call__ c1 body model_type w) = Return v ->
        exists response, v = VCoroutine Postprocess response).
Proof.
  intros Hsame. split.
  - intros Hpost body model_type w. unfold __call__.
    apply bind_ext.
    { rewrite !await_if_coroutine_eq. apply Hsame. }
    intros r w1. apply bind_ext; [reflexivity|].
    intros request w2. apply bind_ext.
    { destruct model_type as [[]|]; [| |reflexivity];
        rewrite !await_if_coroutine_eq; apply Hsame. }
    intros response w3. apply bind_ext; [|reflexivity].
    unfold call. cbn [method]. rewrite <- Hpost.
    destruct (iscoroutinefunction (m_postprocess c1));
      [reflexivity | apply (Hsame Postprocess)].
  - intros Hpost body model_type w v. unfold __call__, bind, of_result.
    destruct (await_if_coroutine c1 Preprocess body w) as [[r|e] w1];
      [|discriminate].
    destruct (validate r) as [request|e]; [|discriminate].
    destruct (match model_type with
              | Some EXPLAINER => await_if_coroutine c1 Explain request
              | Some PREDICTOR => await_if_coroutine c1 Predict request
              | None => raise NotImplementedError
              end w1) as [[response|e] w2]; [|discriminate].
    unfold call. cbn [method]. rewrite Hpost. cbn.
    intros [= <-]. eauto.
Qed.

Lemma call_sync_async_witness :
  __call__ (echo_class false false true false) (VDict ∅) (Some PREDICTOR)
    (mkWorld (__init__ "m") [])
  = __call__ (echo_class true true false false) (VDict ∅) (Some PREDICTOR)
      (mkWorld (__init__ "m") [])
  /\ exists response,
       VCoroutine Postprocess (VDict ∅) = VCoroutine Postprocess response.
Proof.
  split.
  - apply (proj1 (call_sync_async (echo_class false false true false)
                    (echo_class true true false false)
                    (fun st arg w => match st with
                                     | Preprocess | Predict | Explain
                                     | Postprocess => eq_refl
                                     end))).
    reflexivity.
  - apply (proj2 (call_sync_async (echo_class true true true true)
                    (echo_class true true true true)
                    (fun st arg w => eq_refl))
             eq_refl (VDict ∅) (Some PREDICTOR) (mkWorld (__init__ "m") [])).
    reflexivity.
Defined.

(** * Further properties of the pipeline *)

(** ** The validator *)

Lemma validate_offending p :
  offending p -> validate p = Raise (HTTPError 400 (VStr validate_reason)).
Proof.
  intros Ho. destruct Ho as (d & k & v & -> & Hk & Hl & Hv).
  assert (H : offending (VDict d)) by (exists d, k, v; auto).
  apply offending_dict in H. cbn [validate]. now rewrite H.
Qed.

(** X1. [validate] looks at the keys [instances] and [inputs] only: two
    mappings that agree on these two keys are both rejected or both
    accepted, whatever else they hold. *)
Theorem validate_two_keys_only (d1 d2 : gmap string PyVal) :
  d1 !! "instances" = d2 !! "instances" ->
  d1 !! "inputs" = d2 !! "inputs" ->
  rejects (VDict d1) = rejects (VDict d2).
Proof.
  intros Hi Hn. unfold rejects. cbn [validate]. unfold in_and_not_list.
  rewrite Hi, Hn.
  now destruct (_ || _).
Qed.

Lemma validate_two_keys_only_witness :
  rejects (VDict (<["parameters" := VInt 7]> {["instances" := VStr "x"]}))
  = rejects (VDict {["instances" := VStr "x"]}).
Proof.
  apply validate_two_keys_only.
  - now rewrite lookup_insert_ne.
  - now rewrite lookup_insert_ne.
Defined.

(** ** The orchestrator on any subclass *)

Lemma call_eq cls body model_type w :
  __call__ cls body model_type w
  = match run (method cls Preprocess) body w with
    | (Raise e, w1) => (Raise e, w1)
    | (Return r, w1) =>
        match validate r with
        | Raise e => (Raise e, w1)
        | Return request =>
            match match model_type with
                  | Some EXPLAINER => run (method cls Explain) request w1
                  | Some PREDICTOR => run (method cls Predict) request w1
                  | None => (Raise NotImplementedError, w1)
                  end with
            | (Raise e, w2) => (Raise e, w2)
            | (Return response, w2) => call cls Postprocess response w2
            end
        end
    end.
Proof.
  unfold __call__. unfold bind at 1. rewrite await_if_coroutine_eq.
  destruct (run (method cls Preprocess) body w) as [[r|e] w1]; [|reflexivity].
  unfold bind at 1. unfold of_result at 1.
  destruct (validate r) as [request|e]; [|reflexivity].
  unfold bind at 1.
  destruct model_type as [[]|]; rewrite ?await_if_coroutine_eq.
  - destruct (run (method cls Explain) request w1) as [[response|e] w2];
      [|reflexivity].
    unfold bind, ret. now destruct (call cls Postprocess response w2) as [[]].
  - destruct (run (method cls Predict) request w1) as [[response|e] w2];
      [|reflexivity].
    unfold bind, ret. now destruct (call cls Postprocess response w2) as [[]].
  - reflexivity.
Qed.

(** X2. Whatever a subclass overrides, a payload that [validate] rejects is
    never dispatched: when the preprocess stage returns a mapping whose
    [instances] or [inputs] is not a list, the call ends in the 400 error
    in the world the preprocess stage left, and neither the predict, the
    explain nor the postprocess body runs. *)
Theorem rejected_before_dispatch cls body model_type w r w1 :
  run (method cls Preprocess) body w = (Return r, w1) ->
  offending r ->
  __call__ cls body model_type w
  = (Raise (HTTPError 400 (VStr validate_reason)), w1).
Proof.
  intros Hpre Ho. rewrite call_eq, Hpre.
  now rewrite (validate_offending r Ho).
Qed.

Lemma rejected_before_dispatch_witness :
  __call__ (echo_class true false true true)
    (VDict {["inputs" := VInt 3]}) (Some PREDICTOR)
    (mkWorld grpc_unit [])
  = (Raise (HTTPError 400 (VStr validate_reason)), mkWorld grpc_unit []).
Proof.
  apply (rejected_before_dispatch (echo_class true false true true)
           (VDict {["inputs" := VInt 3]}) (Some PREDICTOR)
           (mkWorld grpc_unit []) (VDict {["inputs" := VInt 3]})).
  - reflexivity.
  - exists {["inputs" := VInt 3]}, "inputs", (VInt 3). auto.
Defined.

(** The stage that serves an operation. *)
Lemma stage_errors_dispatch cls body op w r w1 request e w2 :
  run (method cls Preprocess) body w = (Return r, w1) ->
  validate r = Return request ->
  run (method cls (match op with
                   | EXPLAINER => Explain
                   | PREDICTOR => Predict
                   end)) request w1 = (Raise e, w2) ->
  __call__ cls body (Some op) w = (Raise e, w2).
Proof.
  intros Hpre Hval Hd. rewrite call_eq, Hpre, Hval.
  destruct op; now rewrite Hd.
Qed.

(** X3. Whatever a subclass overrides, an exception raised by the
    preprocess stage, or by the predict or explain stage that serves the
    operation, leaves [__call__] as it is, unwrapped, in the world that
    stage left; the later stages, [postprocess] included, do not run. *)
Theorem stage_errors_propagate cls body w :
  (forall model_type e w1,
     run (method cls Preprocess) body w = (Raise e, w1) ->
     __call__ cls body model_type w = (Raise e, w1))
  /\ (forall op r w1 request e w2,
        run (method cls Preprocess) body w = (Return r, w1) ->
        validate r = Return request ->
        run (method cls (match op with
                         | EXPLAINER => Explain
                         | PREDICTOR => Predict
                         end)) request w1 = (Raise e, w2) ->
        __call__ cls body (Some op) w = (Raise e, w2)).
Proof.
  split.
  - intros model_type e w1 Hpre. now rewrite call_eq, Hpre.
  - intros op r w1 request e w2. apply stage_errors_dispatch.
Qed.

Lemma stage_errors_propagate_witness :
  __call__ (base stub_runtime)
    (VCloudEvent {["content-type" := VStr "application/json"]}
                 (VBytes "not json"))
    (Some EXPLAINER) (mkWorld (rest_unit REST_V1) [])
  = (Raise (HTTPError 400
              (VStr "Unrecognized request format: Expecting value")),
     mkWorld (rest_unit REST_V1) [])
  /\ __call__ (base stub_runtime) (VDict ∅) (Some PREDICTOR)
       (mkWorld (__init__ "m") [])
     = (Raise NotImplementedError, mkWorld (__init__ "m") []).
Proof.
  split.
  - apply (proj1 (stage_errors_propagate (base stub_runtime) _ _)).
    reflexivity.
  - apply (proj2 (stage_errors_propagate (base stub_runtime) (VDict ∅)
                    (mkWorld (__init__ "m") []))
             PREDICTOR (VDict ∅) (mkWorld (__init__ "m") []) (VDict ∅)).
    + reflexivity.
    + reflexivity.
    + reflexivity.
Defined.

(** ** Envelopes *)

Lemma call_base_same_decode rt body body' model_type w :
  preprocess rt body w = preprocess rt body' w ->
  __call__ (base rt) body model_type w = __call__ (base rt) body' model_type w.
Proof. intros H. now rewrite !call_base_eq, H. Qed.

(** X4. Envelopes are transparent to a call on [KFModel]'s own stages.  For
    a payload [v] that is itself in no enveloped shape, the call gives the
    same result and world whether the body is [v], a framework request
    resolving to [v], a six-key mapping whose [data] is [v], or (for [v]
    other than bytes) a structured event carrying [v], whatever its
    attributes. *)
Theorem envelope_transparent rt v model_type w :
  raw v = true ->
  __call__ (base rt) (VServeRequest v) model_type w
  = __call__ (base rt) v model_type w
  /\ (forall d, six_keys d = true -> d !! "data" = Some v ->
      __call__ (base rt) (VDict d) model_type w
      = __call__ (base rt) v model_type w)
  /\ (forall attributes, isinstance_bytes v = false ->
      __call__ (base rt) (VCloudEvent attributes v) model_type w
      = __call__ (base rt) v model_type w).
Proof.
  intros Hraw. pose proof (preprocess_raw rt v w Hraw) as Hv.
  split; [|split].
  - apply call_base_same_decode. now rewrite Hv.
  - intros d Hs Hd. apply call_base_same_decode.
    now rewrite preprocess_dict, Hs, Hd, Hv.
  - intros attributes Hb. apply call_base_same_decode. rewrite Hv.
    destruct v; try discriminate Hb; reflexivity.
Qed.

Lemma envelope_transparent_witness :
  __call__ (base stub_runtime) (VDict (event_dict (VDict ∅)))
    (Some PREDICTOR) (mkWorld (rest_unit REST_V2) [])
  = __call__ (base stub_runtime) (VDict ∅) (Some PREDICTOR)
      (mkWorld (rest_unit REST_V2) []).
Proof.
  assert (Hraw : raw (VDict ∅) = true) by (vm_compute; reflexivity).
  apply (proj1 (proj2 (envelope_transparent stub_runtime (VDict ∅)
                         (Some PREDICTOR) (mkWorld (rest_unit REST_V2) [])
                         Hraw))).
  - vm_compute. reflexivity.
  - vm_compute. reflexivity.
Defined.

(** X5. Decoding a structured event.  Data that is not a byte buffer is
    returned as it is; a byte buffer that decodes is replaced by the decoded
    JSON value; in both cases the attributes play no part.  An exception of
    the decoding other than the two that are caught leaves [preprocess]
    unchanged, whatever content type is declared. *)
Theorem preprocess_event rt attributes data w :
  (isinstance_bytes data = false ->
   preprocess rt (VCloudEvent attributes data) w = (Return data, w))
  /\ (forall b v, data = VBytes b -> loads_decoded rt b = inr v ->
      preprocess rt (VCloudEvent attributes data) w = (Return v, w))
  /\ (forall b e, data = VBytes b -> loads_decoded rt b = inl e ->
      (forall msg, e <> JSONDecodeError msg) ->
      (forall msg, e <> UnicodeDecodeError msg) ->
      preprocess rt (VCloudEvent attributes data) w = (Raise e, w)).
Proof.
  split; [|split].
  - intros Hb. destruct data; try discriminate Hb; reflexivity.
  - intros b v -> Hl. cbn [preprocess]. now rewrite Hl.
  - intros b e -> Hl Hj Hu. cbn [preprocess]. rewrite Hl.
    destruct e; try reflexivity.
    + now destruct (Hj msg).
    + now destruct (Hu msg).
Qed.

Lemma preprocess_event_witness :
  preprocess stub_runtime
    (VCloudEvent {["content-type" := VStr "application/json"]}
                 (VDict {["a" := VInt 1]})) (mkWorld (__init__ "m") [])
  = (Return (VDict {["a" := VInt 1]}), mkWorld (__init__ "m") [])
  /\ preprocess stub_runtime (VCloudEvent ∅ (VBytes "{}"))
       (mkWorld (__init__ "m") [])
     = (Return (VDict ∅), mkWorld (__init__ "m") []).
Proof.
  split.
  - apply (proj1 (preprocess_event stub_runtime _ _ _)). reflexivity.
  - apply (proj1 (proj2 (preprocess_event stub_runtime ∅ (VBytes "{}")
                           (mkWorld (__init__ "m") [])))
             "{}" (VDict ∅)); reflexivity.
Defined.

(** X6. Decoding and encoding are local: neither [preprocess] nor
    [postprocess] assigns an attribute of the unit, creates a client or
    makes an outbound call, on any input and whether they return or
    raise. *)
Theorem decode_encode_stateless rt v w :
  snd (preprocess rt v w) = w /\ snd (postprocess rt v w) = w.
Proof. split; [apply preprocess_world | apply postprocess_world]. Qed.

(** ** Outbound calls and the cached clients *)

Lemma post_json_net rt url request u nets :
  exists new,
    net (snd (post_json rt url request (mkWorld u nets))) = (nets ++ new)%list
    /\ (new = []
        \/ exists c, new = [c] /\ call_timeout c = timeout u
                     /\ posts c = true).
Proof.
  unfold post_json. cbn [self net].
  destruct (json_dumps rt request) as [e|js]; cbn [snd net].
  - exists []. split; [now rewrite app_nil_r | now left].
  - eexists. split; [reflexivity|]. right. eexists. repeat split.
Qed.

Lemma dispatch_net rt model_type request u nets :
  exists new,
    net (snd (dispatch rt model_type request (mkWorld u nets)))
    = (nets ++ new)%list
    /\ (new = []
        \/ exists c, new = [c] /\ call_timeout c = timeout u
                     /\ posts c = true).
Proof.
  assert (Hnil : exists new : list NetCall,
             nets = (nets ++ new)%list
             /\ (new = []
                 \/ exists c, new = [c] /\ call_timeout c = timeout u
                              /\ posts c = true))
    by (exists []; split; [now rewrite app_nil_r | now left]).
  destruct model_type as [[]|]; cbn [dispatch].
  - rewrite explain_eq. destruct (explainer_host u); exact Hnil.
  - rewrite predict_eq. destruct (falsy (predictor_host u)); [exact Hnil|].
    destruct (String.eqb (protocol u) (value GRPC_V2));
      [|apply post_json_net].
    rewrite _grpc_predict_eq.
    destruct (_grpc_client_stub u) as [stub|].
    + eexists. split; [reflexivity|]. right. eexists. repeat split.
    + destruct (predictor_host u) as [h|]; [|exact Hnil].
      eexists. split; [reflexivity|]. right. eexists. repeat split.
  - exact Hnil.
Qed.

Lemma call_base_snd rt body model_type u nets :
  snd (__call__ (base rt) body model_type (mkWorld u nets)) = mkWorld u nets
  \/ exists request,
       snd (__call__ (base rt) body model_type (mkWorld u nets))
       = snd (dispatch rt model_type request (mkWorld u nets)).
Proof.
  rewrite call_base_eq.
  pose proof (preprocess_world rt body (mkWorld u nets)) as Hw.
  destruct (preprocess rt body (mkWorld u nets)) as [[r|e] w1];
    cbn in Hw; subst w1; [|now left].
  destruct (validate r) as [request|e]; [|now left].
  right. exists request.
  destruct (dispatch rt model_type request (mkWorld u nets))
    as [[response|e] w2]; [|reflexivity].
  now rewrite postprocess_world.
Qed.

(** X7. A call on [KFModel]'s own stages only ever appends to the record
    of outbound calls, and appends at most one: a single POST or a single
    gRPC inference, made with the unit's [timeout]. *)
Theorem call_one_outbound rt body model_type u nets :
  exists new,
    net (snd (__call__ (base rt) body model_type (mkWorld u nets)))
    = (nets ++ new)%list
    /\ (length new <= 1)%nat
    /\ (forall c, In c new -> call_timeout c = timeout u /\ posts c = true).
Proof.
  assert (Hgoal : forall w' : World,
             (exists new, net w' = (nets ++ new)%list
                /\ (new = []
                    \/ exists c, new = [c] /\ call_timeout c = timeout u
                                 /\ posts c = true)) ->
             exists new, net w' = (nets ++ new)%list
               /\ (length new <= 1)%nat
               /\ (forall c, In c new ->
                             call_timeout c = timeout u /\ posts c = true)).
  { intros w' (new & Hn & [-> | (c & -> & Ht & Hp)]).
    - exists []. split; [exact Hn|]. split; [cbn; lia | intros c []].
    - exists [c]. split; [exact Hn|]. split; [cbn; lia|].
      intros c' [<- | []]. auto. }
  apply Hgoal.
  destruct (call_base_snd rt body model_type u nets) as [-> | [request ->]].
  - exists []. split; [cbn; now rewrite app_nil_r | now left].
  - apply dispatch_net.
Qed.

Lemma call_one_outbound_witness :
  exists new,
    net (snd (__call__ (base stub_runtime) (VDict ∅) (Some PREDICTOR)
                (mkWorld (rest_unit REST_V1) [])))
    = ([] ++ new)%list
    /\ (length new <= 1)%nat
    /\ (forall c, In c new -> call_timeout c = 600 /\ posts c = true).
Proof.
  exact (call_one_outbound stub_runtime (VDict ∅) (Some PREDICTOR)
           (rest_unit REST_V1) []).
Defined.

(** X8. The cached clients are kept.  A call on [KFModel]'s own stages
    never replaces or drops an HTTP client or a gRPC stub that the unit
    already holds, and once the stub exists no call changes
    [predictor_host] any more. *)
Theorem clients_kept rt body model_type u nets :
  let u' := self (snd (__call__ (base rt) body model_type (mkWorld u nets))) in
  (forall c, _http_client_instance u = Some c ->
             _http_client_instance u' = Some c)
  /\ (forall stub, _grpc_client_stub u = Some stub ->
                   _grpc_client_stub u' = Some stub
                   /\ predictor_host u' = predictor_host u).
Proof.
  cbv zeta.
  destruct (call_base_self rt body model_type u nets) as [-> | [request ->]];
    [now split|].
  destruct (dispatch_self rt model_type request u nets)
    as [-> | [-> | (_ & _ & Hs & h & _ & ->)]].
  - now split.
  - unfold cached_http. split.
    + intros c Hc. now rewrite Hc.
    + intros stub Hst. now destruct (_http_client_instance u).
  - split.
    + intros c Hc. unfold with_stub_created.
      now destruct (str_in ":" h).
    + intros stub Hst. congruence.
Qed.

Lemma clients_kept_witness :
  _http_client_instance
    (self (snd (__call__ (base stub_runtime) (VDict ∅) (Some EXPLAINER)
                  (mkWorld (cached_http (rest_unit REST_V1)) []))))
  = Some {| max_clients := sys_maxsize |}.
Proof.
  apply (proj1 (clients_kept stub_runtime (VDict ∅) (Some EXPLAINER)
                  (cached_http (rest_unit REST_V1)) [])).
  reflexivity.
Defined.

Lemma index_cons s1 a s2 :
  String.index 0 s1 (String a s2)
  = if String.prefix s1 (String a s2) then Some 0%nat
    else match String.index 0 s1 s2 with
         | Some n => Some (S n)
         | None => None
         end.
Proof. reflexivity. Qed.

Lemma str_in_colon_app h : str_in ":" (h ++ ":80") = true.
Proof.
  unfold str_in.
  assert (H : exists n, String.index 0 ":" (h ++ ":80") = Some n).
  { induction h as [|a h IH].
    - exists 0%nat. reflexivity.
    - destruct IH as [n Hn].
      change (String a h ++ ":80")%string with (String a (h ++ ":80")).
      rewrite index_cons, Hn.
      destruct (String.prefix ":" (String a (h ++ ":80"))); eauto. }
  destruct H as [n ->]. reflexivity.
Qed.

Lemma str_in_grpc_target h : str_in ":" (grpc_target h) = true.
Proof.
  unfold grpc_target. destruct (str_in ":" h) eqn:E;
    [exact E | apply str_in_colon_app].
Qed.

Lemma with_stub_created_host h u :
  predictor_host u = Some h ->
  predictor_host (with_stub_created h u) = Some (grpc_target h).
Proof.
  intros Hh. unfold with_stub_created, grpc_target.
  now destruct (str_in ":" h).
Qed.

(** X9. The gRPC stub is built once.  When the [_grpc_client] property
    yields a stub, it has made no outbound call, the stub is cached and a
    second read yields the same stub without changing anything.  When the
    stub was built by this read, [predictor_host] now equals the channel
    target and holds a colon, so the default port is appended at most
    once. *)
Theorem grpc_client_once u nets stub w1 :
  _grpc_client (mkWorld u nets) = (Return stub, w1) ->
  _grpc_client w1 = (Return stub, w1)
  /\ net w1 = nets
  /\ _grpc_client_stub (self w1) = Some stub
  /\ (_grpc_client_stub u = None ->
      predictor_host (self w1) = Some (channel_target stub)
      /\ str_in ":" (channel_target stub) = true).
Proof.
  rewrite _grpc_client_eq.
  destruct (_grpc_client_stub u) as [s|] eqn:Es.
  - intros [= <- <-]. rewrite _grpc_client_eq, Es.
    repeat split; try reflexivity; try exact Es; discriminate.
  - destruct (predictor_host u) as [h|] eqn:Eh; [|discriminate].
    intros [= <- <-]. rewrite _grpc_client_eq.
    assert (Hst : _grpc_client_stub (with_stub_created h u)
                  = Some {| channel_target := grpc_target h |})
      by (unfold with_stub_created; now destruct (str_in ":" h)).
    rewrite Hst. cbn [self net channel_target].
    repeat split; try reflexivity; try exact Hst.
    + now apply with_stub_created_host.
    + apply str_in_grpc_target.
Qed.

Lemma grpc_client_once_witness :
  _grpc_client (mkWorld (with_stub_created "predictor" grpc_unit) [])
  = (Return {| channel_target := "predictor:80" |},
     mkWorld (with_stub_created "predictor" grpc_unit) [])
  /\ predictor_host (with_stub_created "predictor" grpc_unit)
     = Some "predictor:80".
Proof.
  destruct (grpc_client_once grpc_unit [] {| channel_target := "predictor:80" |}
              (mkWorld (with_stub_created "predictor" grpc_unit) []) eq_refl)
    as (H1 & _ & _ & H2).
  split; [exact H1 | exact (proj1 (H2 eq_refl))].
Defined.

(** X10. The HTTP client is built once.  The [_http_client] property never
    raises and makes no outbound call; it yields the cached client when
    there is one and otherwise a client with [max_clients = sys.maxsize]
    that it caches; a second read yields the same client and changes
    nothing; the configuration is untouched. *)
Theorem http_client_once u nets :
  exists c,
    _http_client (mkWorld u nets) = (Return c, mkWorld (cached_http u) nets)
    /\ _http_client (mkWorld (cached_http u) nets)
       = (Return c, mkWorld (cached_http u) nets)
    /\ _http_client_instance (cached_http u) = Some c
    /\ (_http_client_instance u = None -> max_clients c = sys_maxsize)
    /\ (forall c0, _http_client_instance u = Some c0 -> c = c0)
    /\ same_config u (cached_http u)
    /\ predictor_host (cached_http u) = predictor_host u.
Proof.
  unfold _http_client, cached_http. run.
  destruct (_http_client_instance u) as [c0|] eqn:E.
  - exists c0. rewrite E. repeat split; try reflexivity; try exact E.
    + discriminate.
    + now intros c1 [= ->].
  - eexists. repeat split; try reflexivity. discriminate.
Qed.

Lemma http_client_once_witness :
  exists c,
    _http_client (mkWorld (__init__ "m") [])
    = (Return c, mkWorld (cached_http (__init__ "m")) [])
    /\ max_clients c = sys_maxsize.
Proof.
  destruct (http_client_once (__init__ "m") [])
    as (c & H1 & _ & _ & H2 & _).
  exists c. split; [exact H1 | exact (H2 eq_refl)].
Defined.

(** ** The two transports, end to end *)

Lemma dispatch_http_predict rt request u nets :
  falsy (predictor_host u) = false ->
  protocol u <> value GRPC_V2 ->
  dispatch rt (Some PREDICTOR) request (mkWorld u nets)
  = post_json rt (predict_url u) request (mkWorld u nets).
Proof.
  intros Hh Hp. cbn [dispatch]. rewrite predict_eq, Hh.
  apply String.eqb_neq in Hp. now rewrite Hp.
Qed.

(** X11. The HTTP path of a prediction on success.  When decoding and
    validation yield [request], the predictor host is set, the protocol is
    not [grpc-v2], [request] serialises to [js], and the transport answers
    the POST with status 200 and a body that parses to [v], the call
    returns [v] itself (for [v] other than a typed inference response),
    having made exactly one outbound call: the POST of [js] to the predict
    URL with the unit's timeout. *)
Theorem call_http_ok rt body u nets r request js b v :
  fst (preprocess rt body (mkWorld u nets)) = Return r ->
  validate r = Return request ->
  falsy (predictor_host u) = false ->
  protocol u <> value GRPC_V2 ->
  json_dumps rt request = inr js ->
  fetch rt (predict_url u) "POST" (timeout u) js
  = inr {| code := 200; body := b |} ->
  json_loads rt (VBytes b) = inr v ->
  isinstance_ModelInferResponse v = false ->
  __call__ (base rt) body (Some PREDICTOR) (mkWorld u nets)
  = (Return v,
     mkWorld (cached_http u)
             (nets ++ [HttpFetch (predict_url u) "POST" (timeout u) js])).
Proof.
  intros Hpre Hval Hh Hp Hj Hf Hl Hv.
  rewrite (call_base_dispatch _ _ _ _ _ _ Hpre Hval).
  rewrite (dispatch_http_predict _ _ _ _ Hh Hp).
  unfold post_json, http_outcome. cbn [self net].
  rewrite Hj, Hf. cbn. rewrite Hl. cbn [to_result].
  destruct v; try discriminate Hv; reflexivity.
Qed.

(** A runtime whose transport answers every POST with 200 and an empty
    JSON object. *)
Lemma call_http_ok_witness :
  let rt := {| decode_UTF8 := decode_UTF8 stub_runtime;
               json_loads := json_loads stub_runtime;
               json_dumps := json_dumps stub_runtime;
               fetch := fun _ _ _ _ => inr {| code := 200; body := "{}" |};
               ModelInfer := ModelInfer stub_runtime;
               get_response_as_json := get_response_as_json stub_runtime |} in
  __call__ (base rt) (VDict ∅) (Some PREDICTOR)
    (mkWorld (rest_unit REST_V2) [])
  = (Return (VDict ∅),
     mkWorld (cached_http (rest_unit REST_V2))
       [HttpFetch "http://predictor:8080/v2/models/m/infer" "POST" 600 "{}"]).
Proof.
  cbv zeta.
  apply (call_http_ok _ (VDict ∅) (rest_unit REST_V2) []
           (VDict ∅) (VDict ∅) "{}" "{}" (VDict ∅)).
  - reflexivity.
  - reflexivity.
  - reflexivity.
  - discriminate.
  - reflexivity.
  - reflexivity.
  - reflexivity.
  - reflexivity.
Defined.

(** X12. The gRPC path.  When decoding and validation yield [request], the
    predictor host is a non-empty [h] and the protocol is [grpc-v2], a
    prediction makes exactly one outbound call, the inference of [request]
    with the unit's timeout on the stub (the cached one, else a new one
    for [h] with the port defaulted to 80); a fault of that call is the
    call's error, and an answer is handed to [postprocess]. *)
Theorem call_grpc rt body u nets r request h :
  fst (preprocess rt body (mkWorld u nets)) = Return r ->
  validate r = Return request ->
  predictor_host u = Some h ->
  h <> "" ->
  protocol u = value GRPC_V2 ->
  let target := channel_target (stub_for h u) in
  let w' := mkWorld (after_stub h u)
                    (nets ++ [GrpcModelInfer target request (timeout u)]) in
  __call__ (base rt) body (Some PREDICTOR) (mkWorld u nets)
  = match ModelInfer rt target request (timeout u) with
    | inl e => (Raise e, w')
    | inr response => postprocess rt response w'
    end.
Proof.
  intros Hpre Hval Hh Hne Hp. cbv zeta.
  rewrite (call_base_dispatch _ _ _ _ _ _ Hpre Hval). cbn [dispatch].
  rewrite predict_eq, Hh. cbn [falsy].
  apply String.eqb_neq in Hne. rewrite Hne, Hp, String.eqb_refl.
  rewrite _grpc_predict_eq, Hh. unfold stub_for, after_stub.
  destruct (_grpc_client_stub u) as [stub|]; cbn [channel_target].
  - now destruct (ModelInfer rt (channel_target stub) request (timeout u)).
  - now destruct (ModelInfer rt (grpc_target h) request (timeout u)).
Qed.

Lemma call_grpc_witness :
  __call__ (base stub_runtime) (VModelInferRequest "req") (Some PREDICTOR)
    (mkWorld grpc_unit [])
  = (Raise (TransportError "unavailable"),
     mkWorld (with_stub_created "predictor" grpc_unit)
       [GrpcModelInfer "predictor:80" (VModelInferRequest "req") 600]).
Proof.
  apply (call_grpc stub_runtime (VModelInferRequest "req") grpc_unit []
           (VModelInferRequest "req") (VModelInferRequest "req") "predictor").
  - reflexivity.
  - reflexivity.
  - reflexivity.
  - discriminate.
  - reflexivity.
Defined.

(** X13. A call that cannot be routed reaches no backend.  With a
    [model_type] that is neither member of [ModelType], or for an
    explanation on a unit whose [explainer_host] is [None], the call
    fails and the world is as before: no outbound call, no client
    created.  The error is the unimplemented-operation error unless the
    decoder or the validator failed first. *)
Theorem call_unroutable rt body model_type u nets :
  model_type = None
  \/ (model_type = Some EXPLAINER /\ explainer_host u = None) ->
  __call__ (base rt) body model_type (mkWorld u nets)
  = (match fst (preprocess rt body (mkWorld u nets)) with
     | Raise e => Raise e
     | Return r =>
         match validate r with
         | Raise e => Raise e
         | Return _ => Raise NotImplementedError
         end
     end, mkWorld u nets).
Proof.
  intros Hm. rewrite call_base_eq.
  pose proof (preprocess_world rt body (mkWorld u nets)) as Hw.
  destruct (preprocess rt body (mkWorld u nets)) as [[r|e] w1];
    cbn in Hw; subst w1; [|reflexivity].
  cbn [fst]. destruct (validate r) as [request|e]; [|reflexivity].
  destruct Hm as [-> | [-> He]]; cbn [dispatch].
  - reflexivity.
  - now rewrite explain_eq, He.
Qed.

Lemma call_unroutable_witness :
  __call__ (base stub_runtime) (VServeRequest (VDict ∅)) (Some EXPLAINER)
    (mkWorld (__init__ "m") [])
  = (Raise NotImplementedError, mkWorld (__init__ "m") [])
  /\ __call__ (base stub_runtime) (VDict ∅) None
       (mkWorld (rest_unit REST_V1) [])
     = (Raise NotImplementedError, mkWorld (rest_unit REST_V1) []).
Proof.
  split.
  - rewrite (call_unroutable stub_runtime (VServeRequest (VDict ∅))
               (Some EXPLAINER) (__init__ "m") []
               (or_intror (conj eq_refl eq_refl))).
    reflexivity.
  - rewrite (call_unroutable stub_runtime (VDict ∅) None (rest_unit REST_V1) []
               (or_introl eq_refl)).
    reflexivity.
Defined.

(** X14. What can go wrong in [_http_predict].  When the request does not
    serialise, the error of [json.dumps] leaves the method and no request
    is sent, although the HTTP client has been created by then.  A fault
    of the transport, and a 200 answer whose body does not parse, leave the
    method as they are, after the one POST to the predict URL. *)
Theorem http_predict_faults rt request u nets :
  (forall e, json_dumps rt request = inl e ->
     _http_predict rt request (mkWorld u nets)
     = (Raise e, mkWorld (cached_http u) nets))
  /\ (forall js e,
        json_dumps rt request = inr js ->
        fetch rt (predict_url u) "POST" (timeout u) js = inl e ->
        _http_predict rt request (mkWorld u nets)
        = (Raise e,
           mkWorld (cached_http u)
             (nets ++ [HttpFetch (predict_url u) "POST" (timeout u) js])))
  /\ (forall js b e,
        json_dumps rt request = inr js ->
        fetch rt (predict_url u) "POST" (timeout u) js
        = inr {| code := 200; body := b |} ->
        json_loads rt (VBytes b) = inl e ->
        _http_predict rt request (mkWorld u nets)
        = (Raise e,
           mkWorld (cached_http u)
             (nets ++ [HttpFetch (predict_url u) "POST" (timeout u) js]))).
Proof.
  rewrite _http_predict_eq. unfold post_json, http_outcome. cbn [self net].
  split; [|split].
  - intros e ->. reflexivity.
  - intros js e -> ->. reflexivity.
  - intros js b e -> -> Hl. cbn. now rewrite Hl.
Qed.

Lemma http_predict_faults_witness :
  _http_predict stub_runtime (VBytes "raw") (mkWorld (rest_unit REST_V1) [])
  = (Raise (TypeError "Object is not JSON serializable"),
     mkWorld (cached_http (rest_unit REST_V1)) []).
Proof.
  apply (proj1 (http_predict_faults stub_runtime (VBytes "raw")
                  (rest_unit REST_V1) [])).
  reflexivity.
Defined.

(** ** The load lifecycle *)

Lemma call_base_same_config rt body model_type u nets :
  same_config u
    (self (snd (__call__ (base rt) body model_type (mkWorld u nets)))).
Proof.
  destruct (call_base_self rt body model_type u nets) as [-> | [request ->]];
    [apply same_config_refl|].
  destruct (dispatch_self rt model_type request u nets)
    as [-> | [-> | (_ & _ & _ & h & _ & ->)]].
  - apply same_config_refl.
  - apply same_config_cached_http.
  - apply same_config_stub_created.
Qed.

(** X15. [load] returns [True] and marks the unit ready without touching
    any other attribute or the network; loading again changes nothing; and
    a loaded unit stays ready through every call on [KFModel]'s own
    stages, whether the call returns or raises. *)
Theorem load_ready rt u nets :
  load (mkWorld u nets) = (Return true, mkWorld (with_ready true u) nets)
  /\ load (mkWorld (with_ready true u) nets)
     = (Return true, mkWorld (with_ready true u) nets)
  /\ (forall body model_type,
        ready (self (snd (__call__ (base rt) body model_type
                            (snd (load (mkWorld u nets)))))) = true).
Proof.
  split; [reflexivity | split; [reflexivity|]].
  intros body model_type.
  change (snd (load (mkWorld u nets))) with (mkWorld (with_ready true u) nets).
  pose proof (call_base_same_config rt body model_type
                (with_ready true u) nets) as (_ & Hr & _).
  exact Hr.
Qed.
